(** * optionalargs.h: named optional arguments resolved by type identity

    A shallow embedding of [src/optionalargs.h].  The header is C++20
    template code: every branch it takes is an [if constexpr] on the types of
    the arguments, and an instantiation that names a member a type does not
    have is rejected by the compiler.  The embedding therefore works on
    _typed values_: an argument carries its C++ type next to its contents,
    [std::is_same_v] is decidable equality of types, and a lookup yields
    either the value the instantiated function returns or [IllFormed] when
    the instantiation does not compile.

    The fragment of C++ types covered: [int], [bool], unscoped enumerations
    (named by their enclosing namespaces and identifier), and the
    instantiations of the two class templates of the header over these. *)

From stdpp Require Import base decidable option list strings numbers.

Local Open Scope Z_scope.

(** ** The outcome of instantiating and running a function template *)

Inductive Compiled (A : Type) : Type :=
  | Returns (a : A)
  | IllFormed.
Arguments Returns {A} a.
Arguments IllFormed {A}.

Definition cbind {A B : Type} (c : Compiled A) (k : A → Compiled B) : Compiled B :=
  match c with
  | Returns a => k a
  | IllFormed => IllFormed
  end.

Notation "x ←c c ; k" := (cbind c (λ x, k))
  (at level 20, c at level 100, k at level 200, only parsing).

(** ** Types *)

(** An unscoped enumeration, identified by its qualified name.  The
    namespace path is empty for an enumeration of the global namespace. *)
Record EnumName : Type := mkEnum {
  enum_scope : list string;
  enum_ident : string
}.

Inductive ScalarType : Type :=
  | Int
  | Bool
  | Enum (E : EnumName).

(** A scalar value, tagged with the type it has. *)
Inductive Scalar : Type :=
  | SInt (z : Z)
  | SBool (b : bool)
  | SEnum (E : EnumName) (underlying : Z).

Definition scalar_type (s : Scalar) : ScalarType :=
  match s with
  | SInt _ => Int
  | SBool _ => Bool
  | SEnum E _ => Enum E
  end.

(** The two class templates (lines 18-28).  [filenameTag] is the
    [CompileTimeStringLiteral_t] built from [__FILE__]; two such literals are
    the same template argument exactly when the character arrays agree.  The
    [auto defaultValue] parameter carries its own type, so it is a tagged
    scalar. *)
Inductive OptionType : Type :=
  | OptionalArg_t (ValueType_t : ScalarType)
      (filenameTag : string) (lineNumberTag : Z)
  | OptionalArgWithDefault_t (ValueType_t : ScalarType) (defaultValue : Scalar)
      (filenameTag : string) (lineNumberTag : Z).

Inductive CppType : Type :=
  | TScalar (V : ScalarType)
  | TOption (U : OptionType).

Global Instance EnumName_eq_dec : EqDecision EnumName.
Proof. solve_decision. Defined.
Global Instance ScalarType_eq_dec : EqDecision ScalarType.
Proof. solve_decision. Defined.
Global Instance Scalar_eq_dec : EqDecision Scalar.
Proof. solve_decision. Defined.
Global Instance OptionType_eq_dec : EqDecision OptionType.
Proof. solve_decision. Defined.
Global Instance CppType_eq_dec : EqDecision CppType.
Proof. solve_decision. Defined.

(** [std::is_same_v<A, B>] *)
Definition is_same_v (A B : CppType) : bool := bool_decide (A = B).

Definition value_type (U : OptionType) : ScalarType :=
  match U with
  | OptionalArg_t V _ _ => V
  | OptionalArgWithDefault_t V _ _ _ => V
  end.

(** The declaration-site key the macros mix into the type:
    [__FILE__], [__LINE__]. *)
Definition declaration_site (U : OptionType) : string * Z :=
  match U with
  | OptionalArg_t _ f l => (f, l)
  | OptionalArgWithDefault_t _ _ f l => (f, l)
  end.

(** [DECLARE_OPTION] and [DECLARE_OPTION_DEFAULT] (lines 32-36), expanded at
    line [line] of file [file]. *)
Definition DECLARE_OPTION (ValueType_t : ScalarType)
    (file : string) (line : Z) : OptionType :=
  OptionalArg_t ValueType_t file line.

Definition DECLARE_OPTION_DEFAULT (ValueType_t : ScalarType) (defaultValue : Scalar)
    (file : string) (line : Z) : OptionType :=
  OptionalArgWithDefault_t ValueType_t defaultValue file line.

(** ** Values *)

(** A value that can be passed in a parameter pack: a bare scalar, or an
    instance of an option struct with its single member [m_value]. *)
Inductive Value : Type :=
  | Bare (s : Scalar)
  | Instance (T : OptionType) (m_value : Scalar).

Global Instance Value_eq_dec : EqDecision Value.
Proof. solve_decision. Defined.

Definition type_of (v : Value) : CppType :=
  match v with
  | Bare s => TScalar (scalar_type s)
  | Instance T _ => TOption T
  end.

(** The scalar an argument carries: itself, or its payload. *)
Definition contents (v : Value) : Scalar :=
  match v with
  | Bare s => s
  | Instance _ m => m
  end.

(** ** Implicit conversions of the fragment *)

(** The integral and boolean conversions.  Every scalar of the fragment
    converts to [int] (a [bool] to 0 or 1, an enumerator to its underlying
    value) and to [bool] (non-zero is [true]). *)
Definition to_int (s : Scalar) : Z :=
  match s with
  | SInt z => z
  | SBool b => if b then 1 else 0
  | SEnum _ z => z
  end.

Definition to_bool (s : Scalar) : bool :=
  match s with
  | SInt z => negb (z =? 0)
  | SBool b => b
  | SEnum _ z => negb (z =? 0)
  end.

(** Copy-initialisation of a [To] from a scalar.  Nothing but the
    enumeration itself converts to an enumeration. *)
Definition convert_scalar (To : ScalarType) (s : Scalar) : Compiled Scalar :=
  match To with
  | Int => Returns (SInt (to_int s))
  | Bool => Returns (SBool (to_bool s))
  | Enum E => if bool_decide (scalar_type s = Enum E) then Returns s else IllFormed
  end.

Definition scalar_convertible (From To : ScalarType) : bool :=
  match To with
  | Int => true
  | Bool => true
  | Enum E => bool_decide (From = Enum E)
  end.

(** [std::is_convertible_v<From, To>].  The option structs are aggregates
    with no converting constructor and no conversion function: a struct
    converts only to itself (by copy). *)
Definition is_convertible_v (From To : CppType) : bool :=
  match From, To with
  | TScalar a, TScalar b => scalar_convertible a b
  | TOption U, TOption U' => bool_decide (U = U')
  | TScalar _, TOption _ => false
  | TOption _, TScalar _ => false
  end.

(** [return v;] in a function whose return type is [To]. *)
Definition convert (To : CppType) (v : Value) : Compiled Value :=
  match To, v with
  | TScalar V, Bare s => s' ←c convert_scalar V s; Returns (Bare s')
  | TOption U, Instance T m => if bool_decide (U = T) then Returns v else IllFormed
  | TScalar _, Instance _ _ => IllFormed
  | TOption _, Bare _ => IllFormed
  end.

(** ** The option structs (lines 18-28) *)

(** [ValueType_t m_value{}]: value-initialisation. *)
Definition zero (V : ScalarType) : Scalar :=
  match V with
  | Int => SInt 0
  | Bool => SBool false
  | Enum E => SEnum E 0
  end.

(** The member initialiser: [m_value{}] for [OptionalArg_t],
    [m_value = defaultValue] for [OptionalArgWithDefault_t]. *)
Definition default_member_initializer (T : OptionType) : Compiled Scalar :=
  match T with
  | OptionalArg_t V _ _ => Returns (zero V)
  | OptionalArgWithDefault_t V defaultValue _ _ => convert_scalar V defaultValue
  end.

(** [T tmp;] / [T()] *)
Definition default_construct (T : OptionType) : Compiled Value :=
  m ←c default_member_initializer T; Returns (Instance T m).

(** [T( v )] / [T{ v }]: aggregate initialisation of the single member. *)
Definition construct (T : OptionType) (v : Scalar) : Compiled Value :=
  m ←c convert_scalar (value_type T) v; Returns (Instance T m).

(** The member access [x.m_value]; a scalar has no members. *)
Definition member_m_value (x : Value) : Compiled Scalar :=
  match x with
  | Instance _ m => Returns m
  | Bare _ => IllFormed
  end.

(** ** Overload resolution inside the header

    Each lookup is an overload set of three function templates: one without
    option arguments, one taking a first argument and a pack, and one taking
    exactly one option argument, declared in this order.  At a call site
    after the header all three are candidates, and for one option argument
    the non-variadic template is the more specialised one.

    The recursive call in the body of the pack overload is a dependent call
    written _before_ the one-argument overload is declared: that overload is
    a candidate there only when argument-dependent lookup reaches the
    namespace of the header (the global one) through the type of some
    argument of the call. *)

(** Whether the global namespace is an associated namespace of a type: it is
    one for every instantiation of the header's class templates and for an
    enumeration declared at global scope; [int] and [bool] have none. *)
Definition names_global_namespace (ty : CppType) : bool :=
  match ty with
  | TOption _ => true
  | TScalar (Enum E) => bool_decide (enum_scope E = [])
  | TScalar Int => false
  | TScalar Bool => false
  end.

Definition found_by_adl (args : list Value) : bool :=
  existsb (λ a, names_global_namespace (type_of a)) args.

(** ** The no-default lookup (lines 40-72) *)

(** Lines 40-45 (and again lines 69-70): [T tmp; return tmp.m_value;] *)
Definition GetOptionValue_0 (T : CppType) : Compiled Scalar :=
  match T with
  | TOption U => tmp ←c default_construct U; member_m_value tmp
  | TScalar _ => IllFormed
  end.

(** Lines 60-72: exactly one argument. *)
Definition GetOptionValue_1 (T : CppType) (arg : Value) : Compiled Scalar :=
  if is_same_v (type_of arg) T then member_m_value arg
  else GetOptionValue_0 T.

(** Lines 47-58: a first argument and a pack.  The call
    [GetOptionValue<T>( restArgs... )] resolves to the overload without
    arguments for an empty pack, to the one-argument overload for a pack of
    one if lookup finds it, and to this overload otherwise. *)
Fixpoint GetOptionValue_pack (T : CppType) (arg : Value) (restArgs : list Value)
    {struct restArgs} : Compiled Scalar :=
  if is_same_v (type_of arg) T then member_m_value arg
  else
    match restArgs with
    | [] => GetOptionValue_0 T
    | a :: rest =>
        if bool_decide (rest = []) && found_by_adl restArgs
        then GetOptionValue_1 T a
        else GetOptionValue_pack T a rest
    end.

(** [GetOptionValue<T>( args... )] at a call site after the header. *)
Definition GetOptionValue (T : CppType) (args : list Value) : Compiled Scalar :=
  match args with
  | [] => GetOptionValue_0 T
  | [arg] => GetOptionValue_1 T arg
  | arg :: restArgs => GetOptionValue_pack T arg restArgs
  end.

(** ** The default-aware lookup (lines 75-112)

    [ValueType_t] is deduced from the default the caller passes, and is the
    return type of the two overloads that take option arguments: what they
    return is converted to it. *)

(** Lines 75-79. *)
Definition GetOptionValueWithDefault_0 (T : CppType) (defaultValue : Value)
    : Compiled Value :=
  Returns defaultValue.

(** Lines 101-112: exactly one option argument. *)
Definition GetOptionValueWithDefault_1 (T : CppType) (defaultValue arg : Value)
    : Compiled Value :=
  let ValueType_t := type_of defaultValue in
  if is_same_v (type_of arg) T then
    m ←c member_m_value arg; convert ValueType_t (Bare m)
  else Returns defaultValue.

(** Lines 81-99: a first option argument and a pack. *)
Fixpoint GetOptionValueWithDefault_pack (T : CppType) (defaultValue arg : Value)
    (restArgs : list Value) {struct restArgs} : Compiled Value :=
  let ValueType_t := type_of defaultValue in
  if is_same_v (type_of arg) T then
    if is_convertible_v (type_of arg) ValueType_t then convert ValueType_t arg
    else m ←c member_m_value arg; convert ValueType_t (Bare m)
  else
    match restArgs with
    | [] => GetOptionValueWithDefault_0 T defaultValue
    | a :: rest =>
        if bool_decide (rest = []) && found_by_adl (defaultValue :: restArgs)
        then GetOptionValueWithDefault_1 T defaultValue a
        else GetOptionValueWithDefault_pack T defaultValue a rest
    end.

(** [GetOptionValueWithDefault<T>( defaultValue, args... )] at a call site
    after the header. *)
Definition GetOptionValueWithDefault (T : CppType) (defaultValue : Value)
    (args : list Value) : Compiled Value :=
  match args with
  | [] => GetOptionValueWithDefault_0 T defaultValue
  | [arg] => GetOptionValueWithDefault_1 T defaultValue arg
  | arg :: restArgs => GetOptionValueWithDefault_pack T defaultValue arg restArgs
  end.

(** ** The sample code (lines 114-197) *)

Module opt.
(** [__FILE__] of the two declarations: the name the header is compiled
    under. *)
Definition file : string := "optionalargs.h".

(** Line 120: [DECLARE_OPTION_DEFAULT( ItemCount, int, 256 )] *)
Definition ItemCount : OptionType :=
  DECLARE_OPTION_DEFAULT Int (SInt 256) file 120.

(** Line 121: [DECLARE_OPTION_DEFAULT( VerboseLogs, bool, false )] *)
Definition VerboseLogs : OptionType :=
  DECLARE_OPTION_DEFAULT Bool (SBool false) file 121.
End opt.

(** [Log] is called by the sample code but declared nowhere in the header;
    its calls are recorded as they are made. *)
Inductive LogCall : Type :=
  | Log_string (text : string) (pString : string)
  | Log_int (format : string) (n : Z).

(** Lines 140-161.  [m_pData] is recorded as the length of the array it
    owns, [None] for the null pointer. *)
Record TestClass : Type := mkTestClass {
  m_nNumItems : Z;
  m_pData : option Z;
  m_bVerboseLogs : bool
}.

(** The default member initialisers (lines 158-160). *)
Definition TestClass_members : TestClass :=
  {| m_nNumItems := 101; m_pData := None; m_bVerboseLogs := false |}.

(** Lines 156-157: the two overloads of [SetOption].  An argument is
    accepted by the overload whose parameter type it converts to, and by
    none if it converts to neither. *)
Definition SetOption (this : TestClass) (x : Value) : Compiled TestClass :=
  if is_convertible_v (type_of x) (TOption opt.ItemCount) then
    Returns {| m_nNumItems := to_int (contents x);
               m_pData := m_pData this;
               m_bVerboseLogs := m_bVerboseLogs this |}
  else if is_convertible_v (type_of x) (TOption opt.VerboseLogs) then
    Returns {| m_nNumItems := m_nNumItems this;
               m_pData := m_pData this;
               m_bVerboseLogs := to_bool (contents x) |}
  else IllFormed.

(** Line 148: [( SetOption( options ), ... )], left to right. *)
Fixpoint fold_SetOption (this : TestClass) (options : list Value)
    : Compiled TestClass :=
  match options with
  | [] => Returns this
  | x :: rest => this' ←c SetOption this x; fold_SetOption this' rest
  end.

(** What running the constructor does: it completes with an object, or
    [new int[m_nNumItems]] throws for a negative length. *)
Inductive Outcome : Type :=
  | Constructed (object : TestClass) (log : list LogCall)
  | Throws_bad_array_new_length (log : list LogCall).

(** Lines 143-154. *)
Definition TestClass_ctor (pMsg : string) (options : list Value)
    : Compiled Outcome :=
  let log := [Log_string "TestClass" pMsg] in
  this ←c fold_SetOption TestClass_members options;
  if m_nNumItems this <? 0 then Returns (Throws_bad_array_new_length log)
  else
    let this := {| m_nNumItems := m_nNumItems this;
                   m_pData := Some (m_nNumItems this);
                   m_bVerboseLogs := m_bVerboseLogs this |} in
    Returns (Constructed this
      (if m_bVerboseLogs this
       then log ++ [Log_int "item count=%d" (m_nNumItems this)]
       else log)).

(** Lines 127-136: a function taking named options.  Both lookups are
    instantiated with the whole pack; the [int] and the condition of the
    [if] are initialised from what they return. *)
Definition TestFunction (pString : string) (options : list Value)
    : Compiled (list LogCall) :=
  let log := [Log_string "TestFunction " pString] in
  nItemCount ←c GetOptionValue (TOption opt.ItemCount) options;
  verbose ←c GetOptionValue (TOption opt.VerboseLogs) options;
  if to_bool verbose
  then Returns (log ++ [Log_int "Item count=%d" (to_int nItemCount)])
  else Returns log.

(** The two calls of [Log] in [TestTemplate]: with a text only, and with a
    format and a [size_t]. *)
Inductive TemplateLogCall : Type :=
  | Log_text (text : string)
  | Log_size (format : string) (n : Z).

Module TestTemplate.
(** Lines 169-170.  [m_nData] is recorded as the number of its elements. *)
Record members : Type := mk {
  m_nData : Z;
  m_bVerboseLogs : bool
}.
End TestTemplate.

(** Lines 165-180: a class with named template arguments, instantiated and
    default-constructed.  The bound of [m_nData] has to be a constant
    greater than zero.  [sizeof_int] is [sizeof( int )], which the header
    does not fix. *)
Definition TestTemplate_ctor (sizeof_int : Z) (options : list Value)
    : Compiled (TestTemplate.members * list TemplateLogCall) :=
  bound ←c GetOptionValue (TOption opt.ItemCount) options;
  verbose ←c GetOptionValue (TOption opt.VerboseLogs) options;
  if to_int bound <=? 0 then IllFormed
  else
    Returns
      ({| TestTemplate.m_nData := to_int bound;
          TestTemplate.m_bVerboseLogs := to_bool verbose |},
       if to_bool verbose
       then [Log_text "TestTemplate";
             Log_size "data size=%?" (sizeof_int * to_int bound)]
       else [Log_text "TestTemplate"]).

(** ** The string literal used as a template argument (lines 5-15) *)

(** [std::copy_n( first, count, result )] on arrays given by their
    elements: the first [count] elements of [first] overwrite those of
    [result]. *)
Fixpoint copy_n {A : Type} (first : list A) (count : nat) (result : list A)
    : list A :=
  match count with
  | O => result
  | S n =>
      match first, result with
      | x :: first', _ :: result' => x :: copy_n first' n result'
      | _, _ => result
      end
  end.

(** [CompileTimeStringLiteral_t<N>] with its member [char m_value[N]]. *)
Record CompileTimeStringLiteral_t : Type := mkLiteral {
  literal_N : nat;
  literal_m_value : list Ascii.ascii
}.

(** The array a string literal denotes: its characters and the terminating
    null character. *)
Definition string_literal (s : string) : list Ascii.ascii :=
  String.list_ascii_of_string s ++ [Ascii.zero].

(** Lines 9-12: the constructor from [const char ( &str )[N]].  [m_value]
    has no initialiser; [uninitialized] is what the array holds before the
    copy. *)
Definition CompileTimeStringLiteral (str uninitialized : list Ascii.ascii)
    : CompileTimeStringLiteral_t :=
  let N := length str in
  {| literal_N := N; literal_m_value := copy_n str N uninitialized |}.

(** ** Vocabulary of the statements *)

(** No element of the sequence has type [T]. *)
Definition absent (T : CppType) (args : list Value) : Prop :=
  Forall (λ a, type_of a ≠ T) args.

(** What the pack overload does with a first argument of type [T]
    (lines 86-93). *)
Definition pack_match (defaultValue arg : Value) : Compiled Value :=
  if is_convertible_v (type_of arg) (type_of defaultValue)
  then convert (type_of defaultValue) arg
  else m ←c member_m_value arg; convert (type_of defaultValue) (Bare m).

(** What the one-argument overload does with an argument of type [T]
    (line 106). *)
Definition single_match (defaultValue arg : Value) : Compiled Value :=
  m ←c member_m_value arg; convert (type_of defaultValue) (Bare m).

(** The constructor completes with [m_nNumItems = n] and
    [m_bVerboseLogs = b]. *)
Definition constructs (pMsg : string) (options : list Value) (n : Z) (b : bool)
    : Prop :=
  ∃ data log,
    TestClass_ctor pMsg options = Returns (Constructed (mkTestClass n data b) log).

(** An argument one of the overloads of [SetOption] takes. *)
Definition supported (x : Value) : Prop :=
  type_of x = TOption opt.ItemCount ∨ type_of x = TOption opt.VerboseLogs.

(** An instance is well typed when its member has the struct's value type. *)
Definition well_typed (v : Value) : Prop :=
  match v with
  | Bare _ => True
  | Instance T m => scalar_type m = value_type T
  end.

(** The first element of type [T], if there is one. *)
Fixpoint first_of_type (T : CppType) (args : list Value) : option Value :=
  match args with
  | [] => None
  | a :: rest => if is_same_v (type_of a) T then Some a else first_of_type T rest
  end.

(** The last element of type [T], if there is one. *)
Fixpoint last_of_type (T : CppType) (args : list Value) : option Value :=
  match args with
  | [] => None
  | a :: rest =>
      match last_of_type T rest with
      | Some b => Some b
      | None => if is_same_v (type_of a) T then Some a else None
      end
  end.

(** The members after every option of the sequence was applied to [this]
    with the last one of each type deciding. *)
Definition after_options (this : TestClass) (options : list Value) : TestClass :=
  {| m_nNumItems :=
       match last_of_type (TOption opt.ItemCount) options with
       | Some x => to_int (contents x)
       | None => m_nNumItems this
       end;
     m_pData := m_pData this;
     m_bVerboseLogs :=
       match last_of_type (TOption opt.VerboseLogs) options with
       | Some x => to_bool (contents x)
       | None => m_bVerboseLogs this
       end |}.

(** * Properties *)

(** ** Types and conversions *)

Lemma is_same_v_true (A B : CppType) : is_same_v A B = true ↔ A = B.
Proof. unfold is_same_v. apply bool_decide_eq_true. Qed.

Lemma is_same_v_false (A B : CppType) : is_same_v A B = false ↔ A ≠ B.
Proof. unfold is_same_v. apply bool_decide_eq_false. Qed.

Lemma is_same_v_refl (A : CppType) : is_same_v A A = true.
Proof. by apply is_same_v_true. Qed.

(** Converting a scalar to the type it already has copies it. *)
Lemma convert_scalar_same (s : Scalar) :
  convert_scalar (scalar_type s) s = Returns s.
Proof. destruct s as [z|b|E z]; simpl; [done|done|]. by rewrite bool_decide_eq_true_2. Qed.

Lemma convert_same (v : Value) : convert (type_of v) v = Returns v.
Proof.
  destruct v as [s|T m]; simpl.
  - by rewrite convert_scalar_same.
  - by rewrite bool_decide_eq_true_2.
Qed.

(** [convert] succeeds exactly where [std::is_convertible_v] holds. *)
Lemma convert_scalar_defined (To : ScalarType) (s : Scalar) :
  scalar_convertible (scalar_type s) To = true ↔ ∃ s', convert_scalar To s = Returns s'.
Proof.
  destruct To as [| |E]; simpl; [split; eauto..|].
  case_bool_decide; (split; [by eauto|]).
  - done.
  - by intros [s' Hs'].
Qed.

Lemma convert_defined (To : CppType) (v : Value) :
  is_convertible_v (type_of v) To = true ↔ ∃ v', convert To v = Returns v'.
Proof.
  destruct To as [V|U], v as [s|T m]; simpl.
  - rewrite convert_scalar_defined. split.
    + intros [s' ->]. simpl. eauto.
    + destruct (convert_scalar V s); simpl; [eauto|]. by intros [v' Hv'].
  - split; [done|]. by intros [v' Hv'].
  - split; [done|]. by intros [v' Hv'].
  - rewrite bool_decide_eq_true. split.
    + intros ->. case_bool_decide; [eauto|done].
    + case_bool_decide; [done|]. by intros [v' Hv'].
Qed.

(** An option struct never converts to a scalar. *)
Lemma option_not_convertible_to_scalar (T : OptionType) (V : ScalarType) :
  is_convertible_v (TOption T) (TScalar V) = false.
Proof. reflexivity. Qed.

(** ** The scan of the no-default lookup *)

(** The one-argument overload and the pack overload on an empty pack are
    the same function, so it does not matter which of them the recursive
    call resolves to. *)
Lemma GetOptionValue_pack_nil (T : CppType) (a : Value) :
  GetOptionValue_pack T a [] = GetOptionValue_1 T a.
Proof. reflexivity. Qed.

Lemma GetOptionValue_pack_cons (T : CppType) (a b : Value) (rest : list Value) :
  GetOptionValue_pack T a (b :: rest) =
    if is_same_v (type_of a) T then member_m_value a
    else GetOptionValue_pack T b rest.
Proof.
  simpl. destruct (is_same_v (type_of a) T); [done|].
  destruct (bool_decide (rest = []) && _) eqn:Hsel; [|done].
  apply andb_prop in Hsel as [Hnil _].
  apply bool_decide_eq_true in Hnil. by subst rest.
Qed.

(** The lookup as a left-to-right scan. *)
Lemma GetOptionValue_cons (T : CppType) (a : Value) (rest : list Value) :
  GetOptionValue T (a :: rest) =
    if is_same_v (type_of a) T then member_m_value a
    else GetOptionValue T rest.
Proof.
  destruct rest as [|b rest]; [done|].
  change (GetOptionValue T (a :: b :: rest)) with (GetOptionValue_pack T a (b :: rest)).
  rewrite GetOptionValue_pack_cons.
  destruct rest as [|c rest]; done.
Qed.

Lemma GetOptionValue_absent (T : CppType) (args : list Value) :
  absent T args → GetOptionValue T args = GetOptionValue_0 T.
Proof.
  induction 1 as [|a rest Ha _ IH]; [done|].
  rewrite GetOptionValue_cons.
  apply is_same_v_false in Ha. by rewrite Ha.
Qed.

Lemma GetOptionValue_first (T : CppType) (pre post : list Value) (a : Value) :
  absent T pre → type_of a = T →
  GetOptionValue T (pre ++ a :: post) = member_m_value a.
Proof.
  intros Hpre Ha. induction Hpre as [|x pre Hx _ IH]; simpl app.
  - rewrite GetOptionValue_cons. apply is_same_v_true in Ha. by rewrite Ha.
  - rewrite GetOptionValue_cons. apply is_same_v_false in Hx. by rewrite Hx.
Qed.

(** ** The scan of the default-aware lookup *)

Lemma GetOptionValueWithDefault_pack_absent (T : CppType) (d a : Value)
    (rest : list Value) :
  absent T (a :: rest) → GetOptionValueWithDefault_pack T d a rest = Returns d.
Proof.
  revert a. induction rest as [|b rest IH]; intros a Habs.
  - apply Forall_cons_1 in Habs as [Ha _]. apply is_same_v_false in Ha.
    simpl. by rewrite Ha.
  - apply Forall_cons_1 in Habs as [Ha Hrest]. apply is_same_v_false in Ha.
    simpl. rewrite Ha.
    destruct (bool_decide (rest = []) && _).
    + unfold GetOptionValueWithDefault_1.
      apply Forall_cons_1 in Hrest as [Hb _]. apply is_same_v_false in Hb.
      by rewrite Hb.
    + by apply IH.
Qed.

Lemma GetOptionValueWithDefault_absent (T : CppType) (d : Value)
    (args : list Value) :
  absent T args → GetOptionValueWithDefault T d args = Returns d.
Proof.
  intros Habs. destruct args as [|a [|b rest]]; [done| |].
  - apply Forall_cons_1 in Habs as [Ha _]. apply is_same_v_false in Ha.
    unfold GetOptionValueWithDefault, GetOptionValueWithDefault_1. by rewrite Ha.
  - by apply GetOptionValueWithDefault_pack_absent.
Qed.

Lemma GetOptionValueWithDefault_pack_hit (T : CppType) (d a : Value)
    (rest : list Value) :
  type_of a = T → GetOptionValueWithDefault_pack T d a rest = pack_match d a.
Proof.
  intros Ha. apply is_same_v_true in Ha.
  destruct rest; simpl; by rewrite Ha.
Qed.

Lemma GetOptionValueWithDefault_pack_skip (T : CppType) (d x y z : Value)
    (rest : list Value) :
  type_of x ≠ T →
  GetOptionValueWithDefault_pack T d x (y :: z :: rest) =
    GetOptionValueWithDefault_pack T d y (z :: rest).
Proof. intros Hx. apply is_same_v_false in Hx. simpl. by rewrite Hx. Qed.

(** With two or more option arguments the call goes to the pack overload. *)
Lemma GetOptionValueWithDefault_long (T : CppType) (d x : Value)
    (rest : list Value) :
  rest ≠ [] →
  GetOptionValueWithDefault T d (x :: rest) =
    GetOptionValueWithDefault_pack T d x rest.
Proof. by destruct rest. Qed.

Lemma GetOptionValueWithDefault_pack_first_inner (T : CppType) (d a b : Value)
    (pre post : list Value) :
  absent T pre → type_of a = T →
  ∀ x, type_of x ≠ T →
    GetOptionValueWithDefault_pack T d x (pre ++ a :: b :: post) = pack_match d a.
Proof.
  intros Hpre Ha.
  induction Hpre as [|y pre Hy Hpre IH]; intros x Hx; simpl app.
  - rewrite GetOptionValueWithDefault_pack_skip by done.
    by apply GetOptionValueWithDefault_pack_hit.
  - destruct pre as [|z pre]; simpl app in *;
      (rewrite GetOptionValueWithDefault_pack_skip by done; by apply IH).
Qed.

(** A first match that is followed by at least one more argument is
    handled by the pack overload. *)
Lemma GetOptionValueWithDefault_first_inner (T : CppType) (d a b : Value)
    (pre post : list Value) :
  absent T pre → type_of a = T →
  GetOptionValueWithDefault T d (pre ++ a :: b :: post) = pack_match d a.
Proof.
  intros Hpre Ha.
  destruct Hpre as [|x pre Hx Hpre]; simpl app.
  - by apply GetOptionValueWithDefault_pack_hit.
  - rewrite GetOptionValueWithDefault_long by (by destruct pre).
    by apply GetOptionValueWithDefault_pack_first_inner.
Qed.

Lemma GetOptionValueWithDefault_pack_first_last (T : CppType) (d a : Value)
    (pre : list Value) :
  absent T pre → type_of a = T →
  ∀ x, type_of x ≠ T →
    GetOptionValueWithDefault_pack T d x (pre ++ [a]) = single_match d a ∨
    GetOptionValueWithDefault_pack T d x (pre ++ [a]) = pack_match d a.
Proof.
  intros Hpre Ha. pose proof Ha as Ha'. apply is_same_v_true in Ha'.
  induction Hpre as [|y pre Hy Hpre IH]; intros x Hx; simpl app.
  - apply is_same_v_false in Hx.
    cbn [GetOptionValueWithDefault_pack]. rewrite Hx.
    destruct (_ && _).
    + left. unfold GetOptionValueWithDefault_1. by rewrite Ha'.
    + right. simpl. unfold pack_match. by rewrite Ha'.
  - destruct pre as [|z pre]; simpl app in *;
      (rewrite GetOptionValueWithDefault_pack_skip by done; by apply IH).
Qed.

(** A first match in last position is handled by the one-argument overload
    or by the pack overload on an empty pack, depending on the lookup of the
    recursive call; a call with this single argument always goes to the
    one-argument overload. *)
Lemma GetOptionValueWithDefault_first_last (T : CppType) (d a : Value)
    (pre : list Value) :
  absent T pre → type_of a = T →
  GetOptionValueWithDefault T d (pre ++ [a]) = single_match d a ∨
  GetOptionValueWithDefault T d (pre ++ [a]) = pack_match d a.
Proof.
  intros Hpre Ha.
  destruct Hpre as [|x pre Hx Hpre]; simpl app.
  - left. apply is_same_v_true in Ha.
    unfold GetOptionValueWithDefault, GetOptionValueWithDefault_1.
    by rewrite Ha.
  - rewrite GetOptionValueWithDefault_long by (by destruct pre).
    by apply GetOptionValueWithDefault_pack_first_last.
Qed.

(** For an option struct, a scalar default and a scalar payload, the two
    ways of handling a match agree. *)
Lemma pack_match_instance (d : Scalar) (T : OptionType) (m : Scalar) :
  pack_match (Bare d) (Instance T m) = single_match (Bare d) (Instance T m).
Proof. reflexivity. Qed.

Lemma single_match_instance (d : Scalar) (T : OptionType) (m : Scalar) :
  scalar_type d = scalar_type m →
  single_match (Bare d) (Instance T m) = Returns (Bare m).
Proof.
  intros Hty. unfold single_match. simpl. rewrite Hty.
  by rewrite convert_scalar_same.
Qed.

(** The payload of a default-constructed [T] is what its member initialiser
    yields. *)
Lemma GetOptionValue_0_option (T : OptionType) :
  GetOptionValue_0 (TOption T) = default_member_initializer T.
Proof.
  unfold GetOptionValue_0, default_construct.
  by destruct (default_member_initializer T).
Qed.

(** A bare scalar of type [T] that is followed by another argument reaches
    the convertibility test of the pack overload and is returned as it is. *)
Lemma bare_scalar_inner (s d : Scalar) (b : Value) (pre post : list Value) :
  scalar_type d = scalar_type s →
  absent (TScalar (scalar_type s)) pre →
  GetOptionValueWithDefault (TScalar (scalar_type s)) (Bare d)
    (pre ++ Bare s :: b :: post) = Returns (Bare s).
Proof.
  intros Hd Hpre.
  rewrite GetOptionValueWithDefault_first_inner by done.
  unfold pack_match. cbn [type_of]. rewrite Hd.
  pose proof (convert_same (Bare s)) as Hconv. cbn [type_of] in Hconv.
  rewrite Hconv.
  destruct (is_convertible_v _ _) eqn:Hc; [done|].
  assert (is_convertible_v (type_of (Bare s)) (TScalar (scalar_type s)) = true)
    as Hc'; [apply convert_defined; eauto|].
  cbn [type_of] in Hc'. congruence.
Qed.

(** Two option types declared at different sites are different types,
    whatever else they share. *)
Lemma declaration_site_distinct (T1 T2 : OptionType) :
  declaration_site T1 ≠ declaration_site T2 → TOption T1 ≠ TOption T2.
Proof. intros Hsite [= ->]. by apply Hsite. Qed.

(** ** The claims *)

(** C1. For a target option type [T] and an argument sequence that contains
    exactly one instance of [T], with payload [v], the no-default lookup
    returns [v], wherever the instance stands and whatever the other
    elements are. *)
Theorem presence_yields_payload (T : OptionType) (v : Scalar)
    (pre post : list Value) :
  absent (TOption T) pre → absent (TOption T) post →
  GetOptionValue (TOption T) (pre ++ Instance T v :: post) = Returns v.
Proof. intros Hpre _. by rewrite GetOptionValue_first. Qed.

Lemma presence_yields_payload_witness :
  let pre := [Instance opt.VerboseLogs (SBool true); Bare (SInt 7)] in
  let post := [Bare (SBool false)] in
  absent (TOption opt.ItemCount) pre ∧ absent (TOption opt.ItemCount) post ∧
  GetOptionValue (TOption opt.ItemCount)
    (pre ++ Instance opt.ItemCount (SInt 50) :: post) = Returns (SInt 50).
Proof.
  assert (absent (TOption opt.ItemCount)
            [Instance opt.VerboseLogs (SBool true); Bare (SInt 7)]) as Hpre
    by (repeat constructor; discriminate).
  assert (absent (TOption opt.ItemCount) [Bare (SBool false)]) as Hpost
    by (repeat constructor; discriminate).
  split; [exact Hpre|]. split; [exact Hpost|].
  exact (presence_yields_payload opt.ItemCount (SInt 50) _ _ Hpre Hpost).
Defined.

(** C2. When the sequence holds two instances of [T], with payloads [v1]
    (earlier) and [v2] (later), both lookups return [v1]: the leftmost match
    wins and what follows it is not looked at.  The default-aware lookup
    returns in the type of the supplied default, here a value of [T]'s value
    type, as the payloads are. *)
Theorem leftmost_match_wins (T : OptionType) (v1 v2 d : Scalar)
    (pre mid post : list Value) :
  absent (TOption T) pre →
  scalar_type v1 = value_type T → scalar_type d = value_type T →
  GetOptionValue (TOption T)
    (pre ++ Instance T v1 :: mid ++ Instance T v2 :: post) = Returns v1 ∧
  GetOptionValueWithDefault (TOption T) (Bare d)
    (pre ++ Instance T v1 :: mid ++ Instance T v2 :: post) = Returns (Bare v1).
Proof.
  intros Hpre Hv1 Hd. split.
  - by rewrite GetOptionValue_first.
  - assert (∃ b rest, mid ++ Instance T v2 :: post = b :: rest) as (b & rest & ->)
      by (destruct mid; simpl; eauto).
    rewrite GetOptionValueWithDefault_first_inner by done.
    rewrite pack_match_instance. apply single_match_instance. congruence.
Qed.

Lemma leftmost_match_wins_witness :
  let pre := [Instance opt.VerboseLogs (SBool true)] in
  let args := pre ++ Instance opt.ItemCount (SInt 1) :: [Bare (SInt 9)]
                  ++ Instance opt.ItemCount (SInt 2) :: [] in
  absent (TOption opt.ItemCount) pre ∧
  GetOptionValue (TOption opt.ItemCount) args = Returns (SInt 1) ∧
  GetOptionValueWithDefault (TOption opt.ItemCount) (Bare (SInt 0)) args
    = Returns (Bare (SInt 1)).
Proof.
  assert (absent (TOption opt.ItemCount) [Instance opt.VerboseLogs (SBool true)])
    as Hpre by (repeat constructor; discriminate).
  split; [exact Hpre|].
  exact (leftmost_match_wins opt.ItemCount (SInt 1) (SInt 2) (SInt 0)
           _ [Bare (SInt 9)] [] Hpre eq_refl eq_refl).
Defined.




(** C4. When no element of the sequence has type [T], the default-aware
    lookup returns the default the caller supplied, whatever [T] declares. *)
Theorem absence_yields_supplied_default (T : CppType) (defaultValue : Value)
    (args : list Value) :
  absent T args →
  GetOptionValueWithDefault T defaultValue args = Returns defaultValue.
Proof. apply GetOptionValueWithDefault_absent. Qed.

Lemma absence_yields_supplied_default_witness :
  let args := [Instance opt.VerboseLogs (SBool true); Bare (SInt 3)] in
  absent (TOption opt.ItemCount) args ∧
  GetOptionValueWithDefault (TOption opt.ItemCount) (Bare (SInt 64)) args
    = Returns (Bare (SInt 64)).
Proof.
  assert (absent (TOption opt.ItemCount)
            [Instance opt.VerboseLogs (SBool true); Bare (SInt 3)]) as Habs
    by (repeat constructor; discriminate).
  split; [exact Habs|].
  exact (absence_yields_supplied_default _ (Bare (SInt 64)) _ Habs).
Defined.

(** C5, evaluated on the code.  A bare scalar of the target type that is the
    only option argument goes to the one-argument overload (lines 101-112),
    which reads [arg.m_value] without the convertibility test of the pack
    overload: the call does not compile.  The same scalar followed by one
    more argument is handled by the pack overload (lines 86-89) and is
    returned as it is. *)
Theorem bare_scalar_in_last_position :
  (∀ (s : Scalar) (defaultValue : Value),
     GetOptionValueWithDefault (TScalar (scalar_type s)) defaultValue [Bare s]
       = IllFormed) ∧
  (∀ (s d : Scalar) (b : Value) (rest : list Value),
     scalar_type d = scalar_type s →
     GetOptionValueWithDefault (TScalar (scalar_type s)) (Bare d)
       (Bare s :: b :: rest) = Returns (Bare s)).
Proof.
  split.
  - intros s d. unfold GetOptionValueWithDefault, GetOptionValueWithDefault_1.
    cbn [type_of]. by rewrite is_same_v_refl.
  - intros s d b rest Hd.
    by apply (bare_scalar_inner s d b [] rest Hd); constructor.
Qed.

Lemma bare_scalar_in_last_position_witness :
  let Color := mkEnum [] "Color" in
  GetOptionValueWithDefault (TScalar (Enum Color)) (Bare (SEnum Color 0))
    [Bare (SEnum Color 1)] = IllFormed ∧
  GetOptionValueWithDefault (TScalar (Enum Color)) (Bare (SEnum Color 0))
    [Bare (SEnum Color 1); Instance opt.VerboseLogs (SBool true)]
    = Returns (Bare (SEnum Color 1)).
Proof.
  destruct bare_scalar_in_last_position as [Hlast Hinner].
  split.
  - exact (Hlast (SEnum (mkEnum [] "Color") 1) (Bare (SEnum (mkEnum [] "Color") 0))).
  - exact (Hinner (SEnum (mkEnum [] "Color") 1) (SEnum (mkEnum [] "Color") 0)
             (Instance opt.VerboseLogs (SBool true)) [] eq_refl).
Defined.

(** ** The setter pattern *)

(** C6, as the code has it.  The two orders of an [ItemCount] and a
    [VerboseLogs] argument construct the same object (and log the same).
    Without arguments the members keep their own initialisers, 101 items
    and quiet logs; [ItemCount(50)] gives 50 items and quiet logs;
    [VerboseLogs(true), ItemCount(100)] gives 100 items and verbose logs. *)
Theorem setter_pattern_state (pMsg : string) :
  (∀ (n : Z) (b : bool),
     TestClass_ctor pMsg
       [Instance opt.ItemCount (SInt n); Instance opt.VerboseLogs (SBool b)]
     = TestClass_ctor pMsg
       [Instance opt.VerboseLogs (SBool b); Instance opt.ItemCount (SInt n)]) ∧
  constructs pMsg [] 101 false ∧
  constructs pMsg [Instance opt.ItemCount (SInt 50)] 50 false ∧
  constructs pMsg
    [Instance opt.VerboseLogs (SBool true); Instance opt.ItemCount (SInt 100)]
    100 true.
Proof.
  split; [|split; [|split]].
  - intros n b. reflexivity.
  - by eexists _, _.
  - by eexists _, _.
  - by eexists _, _.
Qed.

(** C6 as stated fails in its first example: constructed without arguments,
    the object has 101 items, the initialiser of [m_nNumItems], not the 256
    that [opt::ItemCount] declares. *)
Lemma setter_pattern_no_arguments_counterexample :
  TestClass_ctor "no args" []
    = Returns (Constructed
        {| m_nNumItems := 101; m_pData := Some 101; m_bVerboseLogs := false |}
        [Log_string "TestClass" "no args"]) ∧
  ¬ constructs "no args" [] 256 false.
Proof.
  split; [reflexivity|].
  intros (data & log & H). discriminate H.
Qed.

(** ** The factory *)

(** C7. Two declarations at distinct sites, with the same value type and
    the same default (or both without one), produce distinct types, and a
    sequence made of instances of the first only never matches a lookup of
    the second: the no-default lookup gives what it gives for no arguments,
    the default-aware lookup gives the supplied default. *)
Theorem identity_uniqueness (V : ScalarType) (d : Scalar)
    (file1 file2 : string) (line1 line2 : Z) :
  (file1, line1) ≠ (file2, line2) →
  (let A := DECLARE_OPTION_DEFAULT V d file1 line1 in
   let B := DECLARE_OPTION_DEFAULT V d file2 line2 in
   A ≠ B ∧ is_same_v (TOption A) (TOption B) = false ∧
   ∀ (args : list Value) (dflt : Value),
     Forall (λ a, type_of a = TOption A) args →
     GetOptionValue (TOption B) args = GetOptionValue (TOption B) [] ∧
     GetOptionValueWithDefault (TOption B) dflt args = Returns dflt) ∧
  (let A := DECLARE_OPTION V file1 line1 in
   let B := DECLARE_OPTION V file2 line2 in
   A ≠ B ∧ is_same_v (TOption A) (TOption B) = false ∧
   ∀ (args : list Value) (dflt : Value),
     Forall (λ a, type_of a = TOption A) args →
     GetOptionValue (TOption B) args = GetOptionValue (TOption B) [] ∧
     GetOptionValueWithDefault (TOption B) dflt args = Returns dflt).
Proof.
  intros Hsite.
  assert (∀ A B : OptionType, declaration_site A ≠ declaration_site B →
    A ≠ B ∧ is_same_v (TOption A) (TOption B) = false ∧
    ∀ (args : list Value) (dflt : Value),
      Forall (λ a, type_of a = TOption A) args →
      GetOptionValue (TOption B) args = GetOptionValue (TOption B) [] ∧
      GetOptionValueWithDefault (TOption B) dflt args = Returns dflt) as Hgen.
  { intros A B HAB. pose proof (declaration_site_distinct A B HAB) as Hne.
    split; [congruence|]. split; [by apply is_same_v_false|].
    intros args dflt Hargs.
    assert (absent (TOption B) args) as Habs.
    { eapply Forall_impl; [|exact Hargs]. intros a Ha. simpl in Ha. congruence. }
    split.
    - by rewrite GetOptionValue_absent.
    - by apply GetOptionValueWithDefault_absent. }
  split; apply Hgen; exact Hsite.
Qed.

Lemma identity_uniqueness_witness :
  let A := DECLARE_OPTION_DEFAULT Int (SInt 8) "a.h" 10 in
  let B := DECLARE_OPTION_DEFAULT Int (SInt 8) "a.h" 11 in
  ("a.h", 10) ≠ ("a.h", 11) ∧ A ≠ B ∧
  GetOptionValue (TOption B) [Instance A (SInt 3)] = GetOptionValue (TOption B) [] ∧
  GetOptionValueWithDefault (TOption B) (Bare (SInt 5)) [Instance A (SInt 3)]
    = Returns (Bare (SInt 5)).
Proof.
  assert (("a.h", 10) ≠ ("a.h", 11)) as Hsite by discriminate.
  destruct (identity_uniqueness Int (SInt 8) "a.h" "a.h" 10 11 Hsite)
    as [(Hne & _ & Hlookup) _].
  split; [exact Hsite|]. split; [exact Hne|].
  apply (Hlookup [Instance (DECLARE_OPTION_DEFAULT Int (SInt 8) "a.h" 10) (SInt 3)]).
  repeat constructor.
Defined.

(** C8, as the code has it.  An option type declared without a default is
    default-constructible, with the zero of its value type as payload: [0],
    [false], the enumerator of value 0.  One declared with a default is
    default-constructible exactly when the default converts to the value
    type ([m_value = defaultValue]), and the payload is the converted
    default: the default itself when it is of the value type.  An instance
    constructed from a value of the value type has that value as payload. *)
Theorem construction_payload :
  (∀ (file : string) (line : Z),
     default_construct (DECLARE_OPTION Int file line)
       = Returns (Instance (DECLARE_OPTION Int file line) (SInt 0)) ∧
     default_construct (DECLARE_OPTION Bool file line)
       = Returns (Instance (DECLARE_OPTION Bool file line) (SBool false)) ∧
     ∀ E : EnumName,
       default_construct (DECLARE_OPTION (Enum E) file line)
         = Returns (Instance (DECLARE_OPTION (Enum E) file line) (SEnum E 0))) ∧
  (∀ (V : ScalarType) (d : Scalar) (file : string) (line : Z),
     scalar_type d = V →
     default_construct (DECLARE_OPTION_DEFAULT V d file line)
       = Returns (Instance (DECLARE_OPTION_DEFAULT V d file line) d)) ∧
  (∀ (V : ScalarType) (d : Scalar) (file : string) (line : Z),
     let T := DECLARE_OPTION_DEFAULT V d file line in
     default_construct T =
       match V, d with
       | Int, SInt z => Returns (Instance T (SInt z))
       | Int, SBool b => Returns (Instance T (SInt (if b then 1 else 0)))
       | Int, SEnum _ z => Returns (Instance T (SInt z))
       | Bool, SInt z => Returns (Instance T (SBool (negb (z =? 0))))
       | Bool, SBool b => Returns (Instance T (SBool b))
       | Bool, SEnum _ z => Returns (Instance T (SBool (negb (z =? 0))))
       | Enum E, SEnum E' z =>
           if bool_decide (E' = E) then Returns (Instance T (SEnum E' z))
           else IllFormed
       | Enum _, SInt _ => IllFormed
       | Enum _, SBool _ => IllFormed
       end) ∧
  (∀ (V : ScalarType) (d : Scalar) (file : string) (line : Z),
     (∃ x, default_construct (DECLARE_OPTION_DEFAULT V d file line) = Returns x) ↔
     is_convertible_v (TScalar (scalar_type d)) (TScalar V) = true) ∧
  (∀ (T : OptionType) (v : Scalar),
     scalar_type v = value_type T →
     construct T v = Returns (Instance T v)).
Proof.
  split; [|split; [|split; [|split]]].
  - intros file line. split; [done|]. split; done.
  - intros V d file line <-. unfold default_construct. simpl.
    by rewrite convert_scalar_same.
  - intros V d file line T.
    destruct V as [| |E], d as [z|b|E' z]; try done.
    unfold default_construct, T. simpl.
    destruct (decide (E' = E)) as [->|Hne].
    + by rewrite !bool_decide_eq_true_2.
    + rewrite !bool_decide_eq_false_2; [done|done|congruence].
  - intros V d file line. unfold default_construct. simpl.
    rewrite (convert_scalar_defined V d). split.
    + intros [x Hx]. destruct (convert_scalar V d) as [m|]; [eauto|done].
    + intros [m ->]. simpl. eauto.
  - intros T v Hv. unfold construct. rewrite <- Hv.
    by rewrite convert_scalar_same.
Qed.

Lemma construction_payload_witness :
  let Color := mkEnum [] "Color" in
  (default_construct (DECLARE_OPTION Bool "a.h" 1)
     = Returns (Instance (DECLARE_OPTION Bool "a.h" 1) (SBool false)) ∧
   default_construct (DECLARE_OPTION (Enum Color) "a.h" 2)
     = Returns (Instance (DECLARE_OPTION (Enum Color) "a.h" 2) (SEnum Color 0))) ∧
  (scalar_type (SInt 256) = Int ∧
   default_construct opt.ItemCount = Returns (Instance opt.ItemCount (SInt 256))) ∧
  default_construct (DECLARE_OPTION_DEFAULT Bool (SInt 2) "a.h" 3)
    = Returns (Instance (DECLARE_OPTION_DEFAULT Bool (SInt 2) "a.h" 3) (SBool true)) ∧
  ((∃ x, default_construct opt.VerboseLogs = Returns x) ∧
   is_convertible_v (TScalar (scalar_type (SBool false))) (TScalar Bool) = true) ∧
  (scalar_type (SInt 50) = value_type opt.ItemCount ∧
   construct opt.ItemCount (SInt 50) = Returns (Instance opt.ItemCount (SInt 50))).
Proof.
  destruct construction_payload
    as (Hzero & Hdefault & Hconverted & Hiff & Hexplicit).
  split; [|split; [|split; [|split]]].
  - destruct (Hzero "a.h" 1) as (_ & Hbool & _).
    destruct (Hzero "a.h" 2) as (_ & _ & Henum).
    split; [exact Hbool|exact (Henum (mkEnum [] "Color"))].
  - split; [reflexivity|]. exact (Hdefault Int (SInt 256) opt.file 120 eq_refl).
  - exact (Hconverted Bool (SInt 2) "a.h" 3).
  - split; [|reflexivity].
    exact (proj2 (Hiff Bool (SBool false) opt.file 121) eq_refl).
  - split; [reflexivity|]. exact (Hexplicit opt.ItemCount (SInt 50) eq_refl).
Defined.

(** C8 as stated fails: an option declared with a default that does not
    convert to the value type, here an [int] default for an option of an
    enumeration type, is a type the factory produces (an instance can be
    built from a value of the value type) that cannot be
    default-constructed. *)
Lemma default_constructible_counterexample :
  let Color := mkEnum [] "Color" in
  let Mode := DECLARE_OPTION_DEFAULT (Enum Color) (SInt 1) "a.h" 3 in
  construct Mode (SEnum Color 1) = Returns (Instance Mode (SEnum Color 1)) ∧
  default_construct Mode = IllFormed ∧
  ¬ ∃ x, default_construct Mode = Returns x.
Proof.
  split; [reflexivity|]. split; [reflexivity|].
  intros [x Hx]. discriminate Hx.
Qed.

(** ** Bare scalars and the no-default lookup *)

(** A lookup of a scalar type never compiles in the no-default form: a
    match reads [m_value] of a scalar, and so does the fall-through
    [T tmp; tmp.m_value]. *)
Lemma GetOptionValue_scalar_target (V : ScalarType) (args : list Value) :
  GetOptionValue (TScalar V) args = IllFormed.
Proof.
  induction args as [|a rest IH]; [done|].
  rewrite GetOptionValue_cons.
  destruct (is_same_v (type_of a) (TScalar V)) eqn:Hsame; [|done].
  apply is_same_v_true in Hsame. by destruct a.
Qed.

(** C9. In the no-default lookup the first argument of type [T] has its
    [m_value] read, at every position, the last included, with no test
    before it.  So a matching bare scalar makes the lookup ill-formed, the
    lookup returns a value only for a target that is an option struct, and
    it is the default-aware lookup that takes a bare scalar. *)
Theorem no_default_lookup_reads_m_value :
  (∀ (T : CppType) (pre post : list Value) (a : Value),
     absent T pre → type_of a = T →
     GetOptionValue T (pre ++ a :: post) = member_m_value a) ∧
  (∀ (pre post : list Value) (s : Scalar),
     absent (TScalar (scalar_type s)) pre →
     GetOptionValue (TScalar (scalar_type s)) (pre ++ Bare s :: post) = IllFormed) ∧
  (∀ (T : CppType) (args : list Value) (v : Scalar),
     GetOptionValue T args = Returns v → ∃ U : OptionType, T = TOption U) ∧
  (∀ (s d : Scalar) (b : Value) (pre post : list Value),
     scalar_type d = scalar_type s →
     absent (TScalar (scalar_type s)) pre →
     GetOptionValueWithDefault (TScalar (scalar_type s)) (Bare d)
       (pre ++ Bare s :: b :: post) = Returns (Bare s)).
Proof.
  split; [|split; [|split]].
  - intros T pre post a Hpre Ha. by apply GetOptionValue_first.
  - intros pre post s Hpre. by rewrite GetOptionValue_first.
  - intros [V|U] args v Hret; [|by eauto].
    by rewrite GetOptionValue_scalar_target in Hret.
  - intros s d b pre post Hd Hpre. by apply bare_scalar_inner.
Qed.

Lemma no_default_lookup_reads_m_value_witness :
  let pre := [Instance opt.VerboseLogs (SBool true)] in
  (absent (TOption opt.ItemCount) pre ∧
   type_of (Instance opt.ItemCount (SInt 5)) = TOption opt.ItemCount ∧
   GetOptionValue (TOption opt.ItemCount) (pre ++ [Instance opt.ItemCount (SInt 5)])
     = Returns (SInt 5)) ∧
  (absent (TScalar Int) pre ∧
   GetOptionValue (TScalar Int) (pre ++ [Bare (SInt 5)]) = IllFormed) ∧
  (GetOptionValue (TOption opt.ItemCount) pre = Returns (SInt 256) ∧
   ∃ U : OptionType, TOption opt.ItemCount = TOption U) ∧
  (scalar_type (SInt 0) = scalar_type (SInt 5) ∧
   GetOptionValueWithDefault (TScalar Int) (Bare (SInt 0))
     (pre ++ Bare (SInt 5) :: Bare (SBool true) :: []) = Returns (Bare (SInt 5))).
Proof.
  assert (absent (TOption opt.ItemCount) [Instance opt.VerboseLogs (SBool true)])
    as H1 by (repeat constructor; discriminate).
  assert (absent (TScalar Int) [Instance opt.VerboseLogs (SBool true)])
    as H2 by (repeat constructor; discriminate).
  destruct no_default_lookup_reads_m_value as (Hread & Hbare & Hoption & Haware).
  split; [|split; [|split]].
  - split; [exact H1|]. split; [reflexivity|].
    exact (Hread _ _ [] (Instance opt.ItemCount (SInt 5)) H1 eq_refl).
  - split; [exact H2|]. exact (Hbare _ [] (SInt 5) H2).
  - split; [reflexivity|].
    exact (Hoption (TOption opt.ItemCount)
             [Instance opt.VerboseLogs (SBool true)] (SInt 256) eq_refl).
  - split; [reflexivity|].
    exact (Haware (SInt 5) (SInt 0) (Bare (SBool true)) _ [] eq_refl H2).
Defined.

(** * Further properties of the header *)

(** ** Helper lemmas *)

Lemma convert_scalar_type (To : ScalarType) (s s' : Scalar) :
  convert_scalar To s = Returns s' → scalar_type s' = To.
Proof.
  destruct To as [| |E]; simpl.
  - by intros [= <-].
  - by intros [= <-].
  - case_bool_decide; [|done]. by intros [= <-].
Qed.

Lemma convert_type (To : CppType) (v v' : Value) :
  convert To v = Returns v' → type_of v' = To.
Proof.
  destruct To as [V|U], v as [s|T m]; simpl; try done.
  - destruct (convert_scalar V s) as [s'|] eqn:Hs; simpl; [|done].
    intros [= <-]. simpl. f_equal. by eapply convert_scalar_type.
  - case_bool_decide; [|done]. intros [= <-]. simpl. by subst.
Qed.

Lemma zero_type (V : ScalarType) : scalar_type (zero V) = V.
Proof. by destruct V. Qed.

Lemma default_member_initializer_type (T : OptionType) (m : Scalar) :
  default_member_initializer T = Returns m → scalar_type m = value_type T.
Proof.
  destruct T as [V f l|V d f l]; simpl.
  - intros [= <-]. apply zero_type.
  - apply convert_scalar_type.
Qed.

(** Every sequence either has no element of type [T] or splits at its
    first one. *)
Lemma first_match_split (T : CppType) (args : list Value) :
  absent T args ∨
  ∃ pre a post, args = pre ++ a :: post ∧ absent T pre ∧ type_of a = T.
Proof.
  induction args as [|x rest IH].
  - left. constructor.
  - destruct (decide (type_of x = T)) as [Hx|Hx].
    + right. exists [], x, rest. split; [done|]. split; [constructor|done].
    + destruct IH as [Habs|(pre & a & post & -> & Hpre & Ha)].
      * left. by constructor.
      * right. exists (x :: pre), a, post.
        split; [done|]. split; [by constructor|done].
Qed.

Lemma first_of_type_absent (T : CppType) (args : list Value) :
  absent T args → first_of_type T args = None.
Proof.
  induction 1 as [|a rest Ha _ IH]; [done|].
  simpl. apply is_same_v_false in Ha. by rewrite Ha.
Qed.

Lemma first_of_type_split (T : CppType) (pre post : list Value) (a : Value) :
  absent T pre → type_of a = T → first_of_type T (pre ++ a :: post) = Some a.
Proof.
  intros Hpre Ha. induction Hpre as [|x pre Hx _ IH]; simpl.
  - apply is_same_v_true in Ha. by rewrite Ha.
  - apply is_same_v_false in Hx. by rewrite Hx.
Qed.

(** For a target that is an option struct and a scalar default, the
    convertibility test of the pack overload always fails, and the two
    overloads with option arguments treat a match alike. *)
Lemma pack_match_option (U : OptionType) (d : Scalar) (a : Value) :
  type_of a = TOption U → pack_match (Bare d) a = single_match (Bare d) a.
Proof. intros Ha. unfold pack_match. by rewrite Ha. Qed.

Lemma GetOptionValueWithDefault_option_cons (U : OptionType) (d : Scalar)
    (a : Value) (rest : list Value) :
  GetOptionValueWithDefault (TOption U) (Bare d) (a :: rest) =
    if is_same_v (type_of a) (TOption U) then single_match (Bare d) a
    else GetOptionValueWithDefault (TOption U) (Bare d) rest.
Proof.
  destruct (is_same_v (type_of a) (TOption U)) eqn:Ha.
  - pose proof (proj1 (is_same_v_true _ _) Ha) as Ha'.
    destruct rest as [|b rest].
    + unfold GetOptionValueWithDefault, GetOptionValueWithDefault_1.
      by rewrite Ha.
    + rewrite GetOptionValueWithDefault_long by done.
      rewrite GetOptionValueWithDefault_pack_hit by done.
      by apply (pack_match_option U).
  - destruct rest as [|b rest].
    + unfold GetOptionValueWithDefault, GetOptionValueWithDefault_1.
      by rewrite Ha.
    + rewrite GetOptionValueWithDefault_long by done.
      cbn [GetOptionValueWithDefault_pack]. rewrite Ha.
      destruct rest as [|c rest].
      * assert (GetOptionValueWithDefault_pack (TOption U) (Bare d) b []
                = GetOptionValueWithDefault_1 (TOption U) (Bare d) b) as Hsame.
        { unfold GetOptionValueWithDefault_1. cbn [GetOptionValueWithDefault_pack].
          destruct (is_same_v (type_of b) (TOption U)) eqn:Hb; [|done].
          apply is_same_v_true in Hb.
          fold (pack_match (Bare d) b). by rewrite (pack_match_option U). }
        rewrite Hsame. by destruct (_ && _).
      * done.
Qed.

(** ** The lookups as a search for the first element of the target type *)

(** X1. The no-default lookup is blind to arguments of other types: taking
    them out of the sequence, wherever they stand, does not change what it
    gives.  This holds for every target, also where the lookup is
    ill-formed. *)
Theorem GetOptionValue_ignores_other_types (T : CppType) (args : list Value) :
  GetOptionValue T args = GetOptionValue T (filter (λ a, type_of a = T) args).
Proof.
  induction args as [|a rest IH]; [done|].
  rewrite filter_cons. destruct (decide (type_of a = T)) as [Ha|Ha].
  - rewrite !GetOptionValue_cons. apply is_same_v_true in Ha. by rewrite Ha.
  - rewrite GetOptionValue_cons. apply is_same_v_false in Ha. by rewrite Ha.
Qed.

(** X2. The no-default lookup of an option struct whose member initialiser
    compiles never fails, whatever is passed, bare scalars and instances of
    unrelated options included: it gives the payload of the first instance
    of the struct, and the initial payload if there is none. *)
Theorem GetOptionValue_total (T : OptionType) (m0 : Scalar) (args : list Value) :
  default_member_initializer T = Returns m0 →
  GetOptionValue (TOption T) args =
    Returns (match first_of_type (TOption T) args with
             | Some a => contents a
             | None => m0
             end).
Proof.
  intros Hinit. induction args as [|a rest IH].
  - change (GetOptionValue (TOption T) []) with (GetOptionValue_0 (TOption T)).
    rewrite GetOptionValue_0_option. by rewrite Hinit.
  - rewrite GetOptionValue_cons. cbn [first_of_type].
    destruct (is_same_v (type_of a) (TOption T)) eqn:Ha; [|done].
    apply is_same_v_true in Ha. by destruct a.
Qed.

Lemma GetOptionValue_total_witness :
  default_member_initializer opt.ItemCount = Returns (SInt 256) ∧
  GetOptionValue (TOption opt.ItemCount)
    [Bare (SInt 3); Instance opt.VerboseLogs (SBool true);
     Instance opt.ItemCount (SInt 9); Instance opt.ItemCount (SInt 10)]
    = Returns (SInt 9).
Proof.
  split; [reflexivity|].
  exact (GetOptionValue_total opt.ItemCount (SInt 256)
           [Bare (SInt 3); Instance opt.VerboseLogs (SBool true);
            Instance opt.ItemCount (SInt 9); Instance opt.ItemCount (SInt 10)]
           eq_refl).
Defined.

(** X3. Whatever the default-aware lookup returns has the type of the
    default the caller supplied ([ValueType_t] is deduced from it and is
    the return type): a match is converted to that type or the call does
    not compile. *)
Theorem GetOptionValueWithDefault_return_type (T : CppType) (d v : Value)
    (args : list Value) :
  GetOptionValueWithDefault T d args = Returns v → type_of v = type_of d.
Proof.
  assert (∀ a, single_match d a = Returns v → type_of v = type_of d) as Hsingle.
  { intros a. unfold single_match.
    destruct (member_m_value a) as [m|]; simpl; [|done]. apply convert_type. }
  assert (∀ a, pack_match d a = Returns v → type_of v = type_of d) as Hpack.
  { intros a. unfold pack_match.
    destruct (is_convertible_v _ _); [apply convert_type|apply Hsingle]. }
  destruct (first_match_split T args) as [Habs|(pre & a & post & -> & Hpre & Ha)].
  - rewrite GetOptionValueWithDefault_absent by done. by intros [= <-].
  - destruct post as [|b post].
    + destruct (GetOptionValueWithDefault_first_last T d a pre Hpre Ha) as [->| ->];
        eauto.
    + rewrite GetOptionValueWithDefault_first_inner by done. eauto.
Qed.

Lemma GetOptionValueWithDefault_return_type_witness :
  GetOptionValueWithDefault (TOption opt.ItemCount) (Bare (SBool false))
    [Instance opt.ItemCount (SInt 9)] = Returns (Bare (SBool true)) ∧
  type_of (Bare (SBool true)) = type_of (Bare (SBool false)).
Proof.
  split; [reflexivity|].
  exact (GetOptionValueWithDefault_return_type (TOption opt.ItemCount)
           (Bare (SBool false)) (Bare (SBool true))
           [Instance opt.ItemCount (SInt 9)] eq_refl).
Defined.

(** The first instance of the struct decides the default-aware lookup of
    an option struct with a scalar default. *)
Lemma GetOptionValueWithDefault_option_first (T : OptionType) (d m : Scalar)
    (pre post : list Value) :
  absent (TOption T) pre →
  GetOptionValueWithDefault (TOption T) (Bare d) (pre ++ Instance T m :: post)
    = single_match (Bare d) (Instance T m).
Proof.
  induction 1 as [|x pre Hx _ IH]; simpl app;
    rewrite GetOptionValueWithDefault_option_cons.
  - cbn [type_of]. by rewrite is_same_v_refl.
  - apply is_same_v_false in Hx. by rewrite Hx.
Qed.

(** Which overload the recursive call of the pack overload reaches with a
    last argument of type [T]. *)
Lemma GetOptionValueWithDefault_pack_last (T : CppType) (d a : Value)
    (pre : list Value) :
  absent T pre → type_of a = T →
  ∀ x, type_of x ≠ T →
    GetOptionValueWithDefault_pack T d x (pre ++ [a]) =
      if found_by_adl [d; a] then single_match d a else pack_match d a.
Proof.
  intros Hpre Ha. pose proof Ha as Ha'. apply is_same_v_true in Ha'.
  induction Hpre as [|y pre Hy Hpre IH]; intros x Hx; simpl app.
  - apply is_same_v_false in Hx.
    cbn [GetOptionValueWithDefault_pack]. rewrite Hx.
    rewrite bool_decide_eq_true_2 by done. rewrite andb_true_l.
    destruct (found_by_adl [d; a]).
    + unfold GetOptionValueWithDefault_1, single_match. by rewrite Ha'.
    + cbn [GetOptionValueWithDefault_pack]. unfold pack_match. by rewrite Ha'.
  - destruct pre as [|z pre]; simpl app in *;
      (rewrite GetOptionValueWithDefault_pack_skip by done; by apply IH).
Qed.

(** X4. When the caller supplies the default the option declares, the two
    lookups agree on every well-typed sequence: the default-aware lookup
    returns what the no-default lookup returns. *)
Theorem lookups_agree_on_declared_default (T : OptionType) (d : Scalar)
    (args : list Value) :
  default_member_initializer T = Returns d →
  Forall well_typed args →
  GetOptionValueWithDefault (TOption T) (Bare d) args =
    (v ←c GetOptionValue (TOption T) args; Returns (Bare v)).
Proof.
  intros Hinit Hwt. induction Hwt as [|a rest Ha _ IH].
  - change (GetOptionValue (TOption T) []) with (GetOptionValue_0 (TOption T)).
    rewrite GetOptionValue_0_option, Hinit. done.
  - rewrite GetOptionValueWithDefault_option_cons, GetOptionValue_cons.
    destruct (is_same_v (type_of a) (TOption T)) eqn:Hsame; [|done].
    apply is_same_v_true in Hsame.
    destruct a as [s|T' m]; [done|]. simpl in Hsame. injection Hsame as ->.
    simpl in Ha. rewrite single_match_instance; [done|].
    apply default_member_initializer_type in Hinit. congruence.
Qed.

Lemma lookups_agree_on_declared_default_witness :
  let args := [Bare (SBool true); Instance opt.ItemCount (SInt 9)] in
  default_member_initializer opt.ItemCount = Returns (SInt 256) ∧
  Forall well_typed args ∧
  GetOptionValueWithDefault (TOption opt.ItemCount) (Bare (SInt 256)) args =
    (v ←c GetOptionValue (TOption opt.ItemCount) args; Returns (Bare v)).
Proof.
  assert (Forall well_typed [Bare (SBool true); Instance opt.ItemCount (SInt 9)])
    as Hwt by (repeat constructor).
  split; [reflexivity|]. split; [exact Hwt|].
  exact (lookups_agree_on_declared_default opt.ItemCount (SInt 256) _ eq_refl Hwt).
Defined.

(** X5. A matched payload comes back converted to the type of the supplied
    default, not in the option's value type: an [int] payload asked for
    with a [bool] default comes back as a [bool], and with a default of an
    enumeration type the call does not compile. *)
Theorem default_aware_lookup_converts (T : OptionType) (d m : Scalar)
    (pre post : list Value) :
  absent (TOption T) pre →
  GetOptionValueWithDefault (TOption T) (Bare d) (pre ++ Instance T m :: post) =
    (m' ←c convert_scalar (scalar_type d) m; Returns (Bare m')).
Proof. intros Hpre. by rewrite GetOptionValueWithDefault_option_first. Qed.

Lemma default_aware_lookup_converts_witness :
  let pre := [Instance opt.VerboseLogs (SBool false)] in
  let Color := mkEnum [] "Color" in
  absent (TOption opt.ItemCount) pre ∧
  GetOptionValueWithDefault (TOption opt.ItemCount) (Bare (SBool false))
    (pre ++ Instance opt.ItemCount (SInt 9) :: []) = Returns (Bare (SBool true)) ∧
  GetOptionValueWithDefault (TOption opt.ItemCount) (Bare (SEnum Color 0))
    (pre ++ Instance opt.ItemCount (SInt 9) :: []) = IllFormed.
Proof.
  assert (absent (TOption opt.ItemCount) [Instance opt.VerboseLogs (SBool false)])
    as Hpre by (repeat constructor; discriminate).
  split; [exact Hpre|]. split.
  - exact (default_aware_lookup_converts opt.ItemCount (SBool false) (SInt 9)
             _ [] Hpre).
  - exact (default_aware_lookup_converts opt.ItemCount
             (SEnum (mkEnum [] "Color") 0) (SInt 9) _ [] Hpre).
Defined.

(** X6. A bare scalar of the target type in last position, behind other
    option arguments, is reached by the recursive call of the pack
    overload.  That call sees the one-argument overload, declared further
    down, only through argument-dependent lookup: for an enumeration of the
    global namespace it does, and the call is ill-formed as in C5; for
    [int], [bool] or an enumeration of another namespace it does not, the
    pack overload takes the call with an empty pack and the scalar is
    returned. *)
Theorem bare_scalar_last_behind_others (s d : Scalar) (x : Value)
    (pre : list Value) :
  scalar_type d = scalar_type s →
  absent (TScalar (scalar_type s)) (x :: pre) →
  GetOptionValueWithDefault (TScalar (scalar_type s)) (Bare d)
    (x :: pre ++ [Bare s]) =
    if names_global_namespace (TScalar (scalar_type s)) then IllFormed
    else Returns (Bare s).
Proof.
  intros Hd Habs. apply Forall_cons_1 in Habs as [Hx Hpre].
  rewrite GetOptionValueWithDefault_long by (by destruct pre).
  rewrite GetOptionValueWithDefault_pack_last by done.
  unfold found_by_adl. cbn [existsb type_of]. rewrite Hd.
  rewrite orb_false_r, orb_diag.
  destruct (names_global_namespace _); [done|].
  unfold pack_match. cbn [type_of]. rewrite Hd.
  pose proof (convert_same (Bare s)) as Hconv. cbn [type_of] in Hconv.
  rewrite Hconv.
  destruct (is_convertible_v _ _) eqn:Hc; [done|].
  assert (is_convertible_v (type_of (Bare s)) (TScalar (scalar_type s)) = true)
    as Hc'; [apply convert_defined; eauto|].
  cbn [type_of] in Hc'. congruence.
Qed.

Lemma bare_scalar_last_behind_others_witness :
  let Color := mkEnum [] "Color" in
  let x := Instance opt.VerboseLogs (SBool true) in
  (scalar_type (SInt 0) = scalar_type (SInt 7) ∧ absent (TScalar Int) [x] ∧
   GetOptionValueWithDefault (TScalar Int) (Bare (SInt 0)) [x; Bare (SInt 7)]
     = Returns (Bare (SInt 7))) ∧
  (scalar_type (SEnum Color 0) = scalar_type (SEnum Color 1) ∧
   absent (TScalar (Enum Color)) [x] ∧
   GetOptionValueWithDefault (TScalar (Enum Color)) (Bare (SEnum Color 0))
     [x; Bare (SEnum Color 1)] = IllFormed).
Proof.
  assert (absent (TScalar Int) [Instance opt.VerboseLogs (SBool true)]) as H1
    by (repeat constructor; discriminate).
  assert (absent (TScalar (Enum (mkEnum [] "Color")))
            [Instance opt.VerboseLogs (SBool true)]) as H2
    by (repeat constructor; discriminate).
  split; (split; [reflexivity|]).
  - split; [exact H1|].
    exact (bare_scalar_last_behind_others (SInt 7) (SInt 0) _ [] eq_refl H1).
  - split; [exact H2|].
    exact (bare_scalar_last_behind_others (SEnum (mkEnum [] "Color") 1)
             (SEnum (mkEnum [] "Color") 0) _ [] eq_refl H2).
Defined.

(** ** Constructing an argument and looking it up *)

(** X7. Round trip: an instance built from [v] and passed behind arguments
    of other types is looked up as [v] converted to the value type; for [v]
    of the value type, as [v] itself. *)
Theorem construct_then_lookup (T : OptionType) (v : Scalar) (x : Value)
    (pre post : list Value) :
  construct T v = Returns x → absent (TOption T) pre →
  GetOptionValue (TOption T) (pre ++ x :: post) = convert_scalar (value_type T) v ∧
  (scalar_type v = value_type T →
   GetOptionValue (TOption T) (pre ++ x :: post) = Returns v).
Proof.
  unfold construct. intros Hx Hpre.
  destruct (convert_scalar (value_type T) v) as [m|] eqn:Hm; [|done].
  simpl in Hx. injection Hx as <-.
  rewrite GetOptionValue_first by done. split; [done|].
  intros Hv. rewrite <- Hv in Hm. rewrite convert_scalar_same in Hm.
  by injection Hm as ->.
Qed.

Lemma construct_then_lookup_witness :
  let pre := [Bare (SInt 1)] in
  construct opt.VerboseLogs (SInt 5) = Returns (Instance opt.VerboseLogs (SBool true)) ∧
  absent (TOption opt.VerboseLogs) pre ∧
  GetOptionValue (TOption opt.VerboseLogs)
    (pre ++ Instance opt.VerboseLogs (SBool true) :: []) = Returns (SBool true).
Proof.
  assert (absent (TOption opt.VerboseLogs) [Bare (SInt 1)]) as Hpre
    by (repeat constructor; discriminate).
  split; [reflexivity|]. split; [exact Hpre|].
  exact (proj1 (construct_then_lookup opt.VerboseLogs (SInt 5) _ _ [] eq_refl Hpre)).
Defined.

(** X8. A default-constructed option, as [opt::VerboseLogs()] in line 186,
    that is the only instance of its type in the sequence is the same as no
    instance for the no-default lookup: taking it out changes nothing.  In
    front of a later instance it is not: the lookup stops at it and gives
    the initial payload, whatever follows.  The default-aware lookup, given
    a default-constructed instance first, returns the declared default,
    converted to the type of the supplied default, and not the supplied
    default. *)
Theorem default_constructed_argument (T : OptionType) (x : Value) (d : Scalar)
    (pre post : list Value) :
  default_construct T = Returns x → absent (TOption T) pre →
  (absent (TOption T) post →
   GetOptionValue (TOption T) (pre ++ x :: post)
     = GetOptionValue (TOption T) (pre ++ post)) ∧
  GetOptionValue (TOption T) (pre ++ x :: post) = default_member_initializer T ∧
  GetOptionValueWithDefault (TOption T) (Bare d) (pre ++ x :: post) =
    (m0 ←c default_member_initializer T;
     m' ←c convert_scalar (scalar_type d) m0; Returns (Bare m')).
Proof.
  unfold default_construct. intros Hx Hpre.
  destruct (default_member_initializer T) as [m0|] eqn:Hm0; [|done].
  simpl in Hx. injection Hx as <-.
  assert (GetOptionValue (TOption T) (pre ++ Instance T m0 :: post) = Returns m0)
    as Hfirst by (by rewrite GetOptionValue_first).
  split; [|split].
  - intros Hpost. rewrite Hfirst.
    rewrite GetOptionValue_absent by (by apply Forall_app).
    by rewrite GetOptionValue_0_option.
  - done.
  - by rewrite GetOptionValueWithDefault_option_first.
Qed.

Lemma default_constructed_argument_witness :
  let x := Instance opt.ItemCount (SInt 256) in
  let pre := [Instance opt.VerboseLogs (SBool true)] in
  default_construct opt.ItemCount = Returns x ∧
  absent (TOption opt.ItemCount) pre ∧
  (GetOptionValue (TOption opt.ItemCount) (pre ++ x :: [Bare (SInt 1)])
     = GetOptionValue (TOption opt.ItemCount) (pre ++ [Bare (SInt 1)])) ∧
  (GetOptionValue (TOption opt.ItemCount)
     (pre ++ x :: [Instance opt.ItemCount (SInt 5)]) = Returns (SInt 256) ∧
   GetOptionValue (TOption opt.ItemCount)
     (pre ++ [Instance opt.ItemCount (SInt 5)]) = Returns (SInt 5)) ∧
  GetOptionValueWithDefault (TOption opt.ItemCount) (Bare (SInt 64))
    (pre ++ x :: []) = Returns (Bare (SInt 256)).
Proof.
  assert (absent (TOption opt.ItemCount) [Instance opt.VerboseLogs (SBool true)])
    as Hpre by (repeat constructor; discriminate).
  assert (absent (TOption opt.ItemCount) [Bare (SInt 1)]) as Hpost
    by (repeat constructor; discriminate).
  split; [reflexivity|]. split; [exact Hpre|]. split; [|split].
  - exact (proj1 (default_constructed_argument opt.ItemCount _ (SInt 64)
                    _ [Bare (SInt 1)] eq_refl Hpre) Hpost).
  - split; [|reflexivity].
    exact (proj1 (proj2 (default_constructed_argument opt.ItemCount _ (SInt 64)
                           _ [Instance opt.ItemCount (SInt 5)] eq_refl Hpre))).
  - exact (proj2 (proj2 (default_constructed_argument opt.ItemCount _ (SInt 64)
                           _ [] eq_refl Hpre))).
Defined.

(** ** The setter pattern of [TestClass] *)

Lemma is_convertible_v_option (ty : CppType) (U : OptionType) :
  is_convertible_v ty (TOption U) = true ↔ ty = TOption U.
Proof.
  destruct ty as [V|U']; simpl; [done|].
  rewrite bool_decide_eq_true. split; congruence.
Qed.

Lemma SetOption_ItemCount (this : TestClass) (x : Value) :
  type_of x = TOption opt.ItemCount →
  SetOption this x =
    Returns {| m_nNumItems := to_int (contents x);
               m_pData := m_pData this;
               m_bVerboseLogs := m_bVerboseLogs this |}.
Proof.
  intros Hx. unfold SetOption.
  by rewrite (proj2 (is_convertible_v_option _ _) Hx).
Qed.

Lemma SetOption_VerboseLogs (this : TestClass) (x : Value) :
  type_of x = TOption opt.VerboseLogs →
  SetOption this x =
    Returns {| m_nNumItems := m_nNumItems this;
               m_pData := m_pData this;
               m_bVerboseLogs := to_bool (contents x) |}.
Proof.
  intros Hx. unfold SetOption. rewrite Hx.
  by rewrite (proj2 (is_convertible_v_option _ opt.VerboseLogs) eq_refl).
Qed.

Lemma SetOption_unsupported (this : TestClass) (x : Value) :
  ¬ supported x → SetOption this x = IllFormed.
Proof.
  intros Hx. unfold SetOption.
  destruct (is_convertible_v (type_of x) (TOption opt.ItemCount)) eqn:H1.
  { apply is_convertible_v_option in H1. destruct Hx. by left. }
  destruct (is_convertible_v (type_of x) (TOption opt.VerboseLogs)) eqn:H2.
  { apply is_convertible_v_option in H2. destruct Hx. by right. }
  done.
Qed.

Lemma SetOption_defined (this : TestClass) (x : Value) :
  supported x ∨ SetOption this x = IllFormed.
Proof.
  destruct (decide (type_of x = TOption opt.ItemCount)) as [H1|H1];
    [left; by left|].
  destruct (decide (type_of x = TOption opt.VerboseLogs)) as [H2|H2];
    [left; by right|].
  right. apply SetOption_unsupported. by intros [?|?].
Qed.

Lemma fold_SetOption_after_options (options : list Value) :
  Forall supported options →
  ∀ this, fold_SetOption this options = Returns (after_options this options).
Proof.
  induction 1 as [|x rest Hx _ IH]; intros this.
  - by destruct this.
  - cbn [fold_SetOption]. destruct Hx as [Hx|Hx].
    + rewrite SetOption_ItemCount by done. cbn [cbind]. rewrite IH.
      unfold after_options. cbn [last_of_type m_nNumItems m_pData m_bVerboseLogs].
      rewrite Hx. rewrite is_same_v_refl.
      replace (is_same_v (TOption opt.ItemCount) (TOption opt.VerboseLogs))
        with false by done.
      by destruct (last_of_type (TOption opt.ItemCount) rest),
                  (last_of_type (TOption opt.VerboseLogs) rest).
    + rewrite SetOption_VerboseLogs by done. cbn [cbind]. rewrite IH.
      unfold after_options. cbn [last_of_type m_nNumItems m_pData m_bVerboseLogs].
      rewrite Hx. rewrite is_same_v_refl.
      replace (is_same_v (TOption opt.VerboseLogs) (TOption opt.ItemCount))
        with false by done.
      by destruct (last_of_type (TOption opt.ItemCount) rest),
                  (last_of_type (TOption opt.VerboseLogs) rest).
Qed.

Lemma fold_SetOption_IllFormed (options : list Value) :
  ∀ this,
    fold_SetOption this options = IllFormed ↔
    Exists (λ x, ¬ supported x) options.
Proof.
  induction options as [|x rest IH]; intros this.
  - split; [done|]. by intros H%Exists_nil.
  - cbn [fold_SetOption]. rewrite Exists_cons.
    destruct (SetOption_defined this x) as [Hx|Hx].
    + assert (∃ this', SetOption this x = Returns this') as [this' ->].
      { destruct Hx as [Hx|Hx];
          [rewrite SetOption_ItemCount by done
          |rewrite SetOption_VerboseLogs by done]; eauto. }
      cbn [cbind]. rewrite IH. split; [by right|]. by intros [?|?].
    + rewrite Hx. split; [|done]. intros _. left. intros Hs.
      destruct Hs as [Hs|Hs];
        [rewrite SetOption_ItemCount in Hx by done
        |rewrite SetOption_VerboseLogs in Hx by done]; done.
Qed.

(** X9. The constructor of [TestClass] is rejected at compile time exactly
    when some argument is neither an [opt::ItemCount] nor an
    [opt::VerboseLogs]: a bare scalar or an instance of any other option
    finds no overload of [SetOption]. *)
Theorem TestClass_rejects_unsupported (pMsg : string) (options : list Value) :
  TestClass_ctor pMsg options = IllFormed ↔
  Exists (λ x, ¬ supported x) options.
Proof.
  rewrite <- (fold_SetOption_IllFormed options TestClass_members).
  unfold TestClass_ctor.
  destruct (fold_SetOption TestClass_members options) as [this|]; [|done].
  cbn [cbind]. by destruct (m_nNumItems this <? 0).
Qed.

(** X10. When every argument is supported, the fold of [SetOption] leaves
    in [m_nNumItems] the count of the last [opt::ItemCount] of the sequence
    and in [m_bVerboseLogs] the flag of the last [opt::VerboseLogs], and
    what the member held before where there is none; [m_pData] is not
    touched.  If the count left by the fold over the initial members is
    negative, [new int[m_nNumItems]] throws after the first line was
    logged. *)
Theorem TestClass_last_setter_wins (options : list Value) :
  Forall supported options →
  (∀ this : TestClass,
     fold_SetOption this options =
       Returns {| m_nNumItems :=
                    match last_of_type (TOption opt.ItemCount) options with
                    | Some x => to_int (contents x)
                    | None => m_nNumItems this
                    end;
                  m_pData := m_pData this;
                  m_bVerboseLogs :=
                    match last_of_type (TOption opt.VerboseLogs) options with
                    | Some x => to_bool (contents x)
                    | None => m_bVerboseLogs this
                    end |}) ∧
  (∀ (pMsg : string) (x : Value),
     last_of_type (TOption opt.ItemCount) options = Some x →
     to_int (contents x) < 0 →
     TestClass_ctor pMsg options
       = Returns (Throws_bad_array_new_length [Log_string "TestClass" pMsg])).
Proof.
  intros Hsup. split.
  - intros this. by rewrite (fold_SetOption_after_options options Hsup).
  - intros pMsg x Hlast Hneg. unfold TestClass_ctor.
    rewrite (fold_SetOption_after_options options Hsup). cbn [cbind].
    unfold after_options. cbn [m_nNumItems]. rewrite Hlast.
    by rewrite (proj2 (Z.ltb_lt _ _) Hneg).
Qed.

Lemma TestClass_last_setter_wins_witness :
  let options := [Instance opt.ItemCount (SInt 5); Instance opt.VerboseLogs (SBool true);
                  Instance opt.ItemCount (SInt (-7))] in
  Forall supported options ∧
  fold_SetOption TestClass_members options
    = Returns {| m_nNumItems := -7; m_pData := None; m_bVerboseLogs := true |} ∧
  GetOptionValue (TOption opt.ItemCount) options = Returns (SInt 5) ∧
  (last_of_type (TOption opt.ItemCount) options
     = Some (Instance opt.ItemCount (SInt (-7))) ∧
   to_int (contents (Instance opt.ItemCount (SInt (-7)))) < 0 ∧
   TestClass_ctor "dup" options
     = Returns (Throws_bad_array_new_length [Log_string "TestClass" "dup"])).
Proof.
  assert (Forall supported
            [Instance opt.ItemCount (SInt 5); Instance opt.VerboseLogs (SBool true);
             Instance opt.ItemCount (SInt (-7))]) as Hsup.
  { repeat constructor; (by left) || (by right). }
  destruct (TestClass_last_setter_wins _ Hsup) as [Hfold Hthrow].
  split; [exact Hsup|]. split; [exact (Hfold TestClass_members)|].
  split; [reflexivity|].
  assert (to_int (contents (Instance opt.ItemCount (SInt (-7)))) < 0) as Hneg
    by reflexivity.
  split; [reflexivity|]. split; [exact Hneg|].
  exact (Hthrow "dup" _ eq_refl Hneg).
Defined.

(** Two supported options of different types can be set in either order. *)
Lemma SetOption_commute (this : TestClass) (x y : Value) :
  type_of x ≠ type_of y →
  (t ←c SetOption this x; SetOption t y) = (t ←c SetOption this y; SetOption t x).
Proof.
  intros Hxy.
  destruct (SetOption_defined this x) as [Hx|Hx];
    destruct (SetOption_defined this y) as [Hy|Hy].
  - destruct Hx as [Hx|Hx], Hy as [Hy|Hy]; try congruence.
    + rewrite (SetOption_ItemCount this x), (SetOption_VerboseLogs this y) by done.
      cbn [cbind].
      by rewrite (SetOption_VerboseLogs _ y), (SetOption_ItemCount _ x).
    + rewrite (SetOption_VerboseLogs this x), (SetOption_ItemCount this y) by done.
      cbn [cbind].
      by rewrite (SetOption_ItemCount _ y), (SetOption_VerboseLogs _ x).
  - rewrite Hy. cbn [cbind].
    destruct (SetOption this x) as [t|]; [|done]. cbn [cbind].
    destruct (SetOption_defined t y) as [Hy'|Hy']; [|done].
    destruct Hy' as [Hy'|Hy'];
      [rewrite SetOption_ItemCount in Hy by done
      |rewrite SetOption_VerboseLogs in Hy by done]; done.
  - rewrite Hx. cbn [cbind].
    destruct (SetOption this y) as [t|]; [|done]. cbn [cbind].
    destruct (SetOption_defined t x) as [Hx'|Hx']; [|done].
    destruct Hx' as [Hx'|Hx'];
      [rewrite SetOption_ItemCount in Hx by done
      |rewrite SetOption_VerboseLogs in Hx by done]; done.
  - by rewrite Hx, Hy.
Qed.

Lemma fold_SetOption_Permutation (options options' : list Value) :
  options ≡ₚ options' → NoDup (type_of <$> options) →
  ∀ this, fold_SetOption this options = fold_SetOption this options'.
Proof.
  induction 1 as [|x l l' Hperm IH|x y l|l l' l'' Hperm1 IH1 Hperm2 IH2];
    intros Hnd this.
  - done.
  - rewrite fmap_cons in Hnd. apply list.NoDup_cons in Hnd as [_ Hnd].
    cbn [fold_SetOption]. destruct (SetOption this x); [|done].
    cbn [cbind]. by apply IH.
  - rewrite !fmap_cons in Hnd. apply list.NoDup_cons in Hnd as [Hy _].
    assert (type_of y ≠ type_of x) as Hyx.
    { intros Heq. apply Hy. rewrite Heq. apply list_elem_of_here. }
    cbn [fold_SetOption].
    pose proof (SetOption_commute this y x Hyx) as Hc.
    destruct (SetOption this y) as [t1|], (SetOption this x) as [t2|];
      cbn [cbind] in *.
    + destruct (SetOption t1 x), (SetOption t2 y); cbn [cbind]; congruence.
    + by destruct (SetOption t1 x).
    + by destruct (SetOption t2 y).
    + done.
  - rewrite IH1 by done. apply IH2.
    by rewrite <- Hperm1.
Qed.

(** X11. Order independence in general: when no two arguments have the
    same type, every reordering of the arguments makes the constructor of
    [TestClass] do the same, rejection, exception, object and log alike. *)
Theorem TestClass_order_independent (pMsg : string) (options options' : list Value) :
  options ≡ₚ options' → NoDup (type_of <$> options) →
  TestClass_ctor pMsg options = TestClass_ctor pMsg options'.
Proof.
  intros Hperm Hnd. unfold TestClass_ctor.
  by rewrite (fold_SetOption_Permutation _ _ Hperm Hnd).
Qed.

Lemma TestClass_order_independent_witness :
  let a := Instance opt.ItemCount (SInt 100) in
  let b := Instance opt.VerboseLogs (SBool true) in
  [a; b] ≡ₚ [b; a] ∧ NoDup (type_of <$> [a; b]) ∧
  TestClass_ctor "both args" [a; b] = TestClass_ctor "both args" [b; a].
Proof.
  assert ([Instance opt.ItemCount (SInt 100); Instance opt.VerboseLogs (SBool true)]
          ≡ₚ [Instance opt.VerboseLogs (SBool true); Instance opt.ItemCount (SInt 100)])
    as Hperm by apply perm_swap.
  assert (NoDup (type_of <$> [Instance opt.ItemCount (SInt 100);
                              Instance opt.VerboseLogs (SBool true)])) as Hnd.
  { apply (bool_decide_unpack _). vm_compute. exact I. }
  split; [exact Hperm|]. split; [exact Hnd|].
  exact (TestClass_order_independent "both args" _ _ Hperm Hnd).
Defined.

(** Without two arguments of one type, the first and the last element of a
    type are the same element. *)
Lemma last_of_type_absent (T : CppType) (args : list Value) :
  absent T args → last_of_type T args = None.
Proof.
  induction 1 as [|a rest Ha _ IH]; [done|].
  simpl. rewrite IH. apply is_same_v_false in Ha. by rewrite Ha.
Qed.

Lemma first_last_of_type (T : CppType) (args : list Value) :
  NoDup (type_of <$> args) → first_of_type T args = last_of_type T args.
Proof.
  induction args as [|a rest IH]; [done|].
  rewrite fmap_cons. intros [Ha Hnd]%list.NoDup_cons. simpl.
  destruct (is_same_v (type_of a) T) eqn:Hsame.
  - apply is_same_v_true in Hsame. rewrite last_of_type_absent; [done|].
    apply list.Forall_forall. intros b Hb Hty. apply Ha.
    rewrite Hsame, <- Hty. by apply list_elem_of_fmap_2.
  - rewrite IH by done. by destruct (last_of_type T rest).
Qed.

(** X12. The setter pattern and the lookups read the same arguments when
    every argument is supported and no type occurs twice: the members of
    [TestClass] are what [GetOptionValue] finds for the two options, except
    that a missing [opt::ItemCount] leaves 101 items where the lookup gives
    the declared 256. *)
Theorem setter_pattern_agrees_with_lookup (options : list Value) :
  Forall supported options → NoDup (type_of <$> options) →
  ∃ this n v,
    fold_SetOption TestClass_members options = Returns this ∧
    GetOptionValue (TOption opt.ItemCount) options = Returns n ∧
    GetOptionValue (TOption opt.VerboseLogs) options = Returns v ∧
    m_bVerboseLogs this = to_bool v ∧
    m_nNumItems this =
      match first_of_type (TOption opt.ItemCount) options with
      | Some _ => to_int n
      | None => 101
      end ∧
    (first_of_type (TOption opt.ItemCount) options = None → n = SInt 256).
Proof.
  intros Hsup Hnd.
  eexists _, _, _. split; [by apply fold_SetOption_after_options|].
  split; [by apply (GetOptionValue_total opt.ItemCount (SInt 256))|].
  split; [by apply (GetOptionValue_total opt.VerboseLogs (SBool false))|].
  unfold after_options. cbn [m_nNumItems m_bVerboseLogs TestClass_members].
  rewrite <- !first_last_of_type by done.
  split; [by destruct (first_of_type (TOption opt.VerboseLogs) options)|].
  split; [by destruct (first_of_type (TOption opt.ItemCount) options)|].
  by intros ->.
Qed.

Lemma setter_pattern_agrees_with_lookup_witness :
  let options := [Instance opt.VerboseLogs (SBool true)] in
  Forall supported options ∧ NoDup (type_of <$> options) ∧
  ∃ this n v,
    fold_SetOption TestClass_members options = Returns this ∧
    GetOptionValue (TOption opt.ItemCount) options = Returns n ∧
    GetOptionValue (TOption opt.VerboseLogs) options = Returns v ∧
    m_bVerboseLogs this = to_bool v ∧
    m_nNumItems this =
      match first_of_type (TOption opt.ItemCount) options with
      | Some _ => to_int n
      | None => 101
      end ∧
    (first_of_type (TOption opt.ItemCount) options = None → n = SInt 256).
Proof.
  assert (Forall supported [Instance opt.VerboseLogs (SBool true)]) as Hsup
    by (repeat constructor; by right).
  assert (NoDup (type_of <$> [Instance opt.VerboseLogs (SBool true)])) as Hnd.
  { apply (bool_decide_unpack _). vm_compute. exact I. }
  split; [exact Hsup|]. split; [exact Hnd|].
  exact (setter_pattern_agrees_with_lookup _ Hsup Hnd).
Defined.

(** ** The other two consumers of the sample code *)

(** X13. [TestFunction] compiles for every pack of options, bare scalars
    and instances of options it does not know included (where [TestClass]
    rejects them), and what it logs is decided by the first
    [opt::ItemCount] and the first [opt::VerboseLogs]: the count, 256 when
    there is none, is logged exactly when the logs are verbose. *)
Theorem TestFunction_accepts_any_options (pString : string) (options : list Value) :
  TestFunction pString options =
    let n := match first_of_type (TOption opt.ItemCount) options with
             | Some x => to_int (contents x)
             | None => 256
             end in
    let b := match first_of_type (TOption opt.VerboseLogs) options with
             | Some x => to_bool (contents x)
             | None => false
             end in
    Returns (if b
             then [Log_string "TestFunction " pString; Log_int "Item count=%d" n]
             else [Log_string "TestFunction " pString]).
Proof.
  unfold TestFunction.
  rewrite (GetOptionValue_total opt.ItemCount (SInt 256)) by done.
  rewrite (GetOptionValue_total opt.VerboseLogs (SBool false)) by done.
  cbn [cbind].
  destruct (first_of_type (TOption opt.ItemCount) options),
           (first_of_type (TOption opt.VerboseLogs) options); cbn [to_bool to_int];
    try done; by destruct (to_bool _).
Qed.

(** X14. [TestTemplate] takes any pack of options too, but the bound of its
    array is the looked-up item count: the instantiation is ill-formed
    exactly when the first [opt::ItemCount] carries a count that is not
    positive, where [TestClass] accepts 0 and throws at run time below it.
    Without an [opt::ItemCount] the array has 256 elements. *)
Theorem TestTemplate_array_bound (sizeof_int : Z) (options : list Value) :
  TestTemplate_ctor sizeof_int options =
    let n := match first_of_type (TOption opt.ItemCount) options with
             | Some x => to_int (contents x)
             | None => 256
             end in
    let b := match first_of_type (TOption opt.VerboseLogs) options with
             | Some x => to_bool (contents x)
             | None => false
             end in
    if n <=? 0 then IllFormed
    else Returns ({| TestTemplate.m_nData := n; TestTemplate.m_bVerboseLogs := b |},
                  if b
                  then [Log_text "TestTemplate";
                        Log_size "data size=%?" (sizeof_int * n)]
                  else [Log_text "TestTemplate"]).
Proof.
  unfold TestTemplate_ctor.
  rewrite (GetOptionValue_total opt.ItemCount (SInt 256)) by done.
  rewrite (GetOptionValue_total opt.VerboseLogs (SBool false)) by done.
  cbn [cbind].
  by destruct (first_of_type (TOption opt.ItemCount) options),
              (first_of_type (TOption opt.VerboseLogs) options).
Qed.

(** ** The string literal as a template argument *)

Lemma copy_n_all {A : Type} (first result : list A) :
  length result = length first → copy_n first (length first) result = first.
Proof.
  revert result. induction first as [|x first IH]; intros result Hlen.
  - by destruct result.
  - destruct result as [|y result]; [done|].
    simpl in *. f_equal. apply IH. lia.
Qed.

Lemma string_literal_inj (s1 s2 : string) :
  string_literal s1 = string_literal s2 → s1 = s2.
Proof.
  unfold string_literal. intros [Heq _]%app_inj_tail.
  rewrite <- (String.string_of_list_ascii_of_string s1).
  rewrite <- (String.string_of_list_ascii_of_string s2).
  by rewrite Heq.
Qed.

(** X15. The constructor of [CompileTimeStringLiteral_t] copies the whole
    literal, terminator included, over whatever [m_value] held; so the tags
    built from two file names are the same template argument exactly when
    the file names are the same string. *)
Theorem filename_tag_identity (s1 s2 : string) (u1 u2 : list Ascii.ascii) :
  length u1 = length (string_literal s1) →
  length u2 = length (string_literal s2) →
  literal_m_value (CompileTimeStringLiteral (string_literal s1) u1)
    = string_literal s1 ∧
  literal_N (CompileTimeStringLiteral (string_literal s1) u1)
    = S (String.length s1) ∧
  (CompileTimeStringLiteral (string_literal s1) u1
     = CompileTimeStringLiteral (string_literal s2) u2 ↔ s1 = s2).
Proof.
  intros Hu1 Hu2. unfold CompileTimeStringLiteral. cbn [literal_m_value literal_N].
  rewrite !copy_n_all by done.
  split; [done|]. split.
  - unfold string_literal. rewrite length_app. simpl.
    assert (∀ s, length (String.list_ascii_of_string s) = String.length s) as Hlen.
    { induction s; simpl; congruence. }
    rewrite Hlen. lia.
  - split.
    + intros [= _ Heq]. by apply string_literal_inj.
    + by intros ->.
Qed.

Lemma filename_tag_identity_witness :
  let u := [Ascii.zero; Ascii.zero; Ascii.zero; Ascii.zero] in
  length u = length (string_literal "a.h") ∧
  literal_m_value (CompileTimeStringLiteral (string_literal "a.h") u)
    = string_literal "a.h" ∧
  literal_N (CompileTimeStringLiteral (string_literal "a.h") u) = 4%nat.
Proof.
  split; [reflexivity|].
  destruct (filename_tag_identity "a.h" "a.h"
              [Ascii.zero; Ascii.zero; Ascii.zero; Ascii.zero]
              [Ascii.zero; Ascii.zero; Ascii.zero; Ascii.zero] eq_refl eq_refl)
    as (Hvalue & HN & _).
  split; [exact Hvalue|exact HN].
Defined.

(** ** Arguments of other types and the default-aware lookup *)

(** X16. For a target that is an option struct and a scalar default, the
    default-aware lookup is blind to arguments of other types as the
    no-default lookup is.  (For a scalar target it is not: by C5 and X6 the
    result depends on whether anything follows the match.) *)
Theorem GetOptionValueWithDefault_ignores_other_types (T : OptionType)
    (d : Scalar) (args : list Value) :
  GetOptionValueWithDefault (TOption T) (Bare d) args =
    GetOptionValueWithDefault (TOption T) (Bare d)
      (filter (λ a, type_of a = TOption T) args).
Proof.
  induction args as [|a rest IH]; [done|].
  rewrite filter_cons. destruct (decide (type_of a = TOption T)) as [Ha|Ha].
  - rewrite !GetOptionValueWithDefault_option_cons.
    apply is_same_v_true in Ha. by rewrite Ha.
  - rewrite GetOptionValueWithDefault_option_cons.
    apply is_same_v_false in Ha. by rewrite Ha.
Qed.
